(** * mindmap-backend: roadmap store and class booking engine

    A shallow embedding of [main.py].  The three MongoDB collections are
    modelled as lists of documents in insertion order; every request handler
    is a computation in a small state-and-exception monad over that store.
    Requests are executed one at a time (serial execution). *)

From Stdlib Require Import List String ZArith Bool Lia.
Import ListNotations.
Local Open Scope string_scope.
Local Open Scope Z_scope.
Local Open Scope list_scope.

(* ================================================================= *)
(** ** Documents *)

(** [Dict[str, Any]]: the payload of a roadmap node or edge.  The handlers
    never look inside a payload, they only store it and hand it back. *)
#[local] Unset Elimination Schemes.
Inductive Json : Type :=
| JNull
| JBool (b : bool)
| JInt (n : Z)
| JStr (s : string)
| JList (l : list Json)
| JDict (fields : list (string * Json)).
#[local] Set Elimination Schemes.

(** One entry of a user's ["roadmaps"] array. *)
Record Roadmap : Type := mkRoadmap {
  title : string;
  nodes : list Json;
  edges : list Json
}.

(** One document of [roadmaps_collection]. *)
Record UserRoadmaps : Type := mkUserRoadmaps {
  email : string;
  roadmaps : list Roadmap
}.

(** [class ClassList(BaseModel)], also the document of [class_collection]. *)
Record ClassList : Type := mkClassList {
  class_name : string;
  class_id : string;
  class_description : string;
  icon : string;
  color : string;
  total_slots : Z;
  bookings : Z;
  waitlist : Z
}.

(** [class Booking(BaseModel)], also the element of the ["bookings"] and
    ["waitlist"] arrays of a booking document. *)
Record Booking : Type := mkBooking {
  b_class_id : string;
  b_class_name : string;
  b_user_name : string;
  b_user_id : string;
  b_booking_date : string
}.

(** [class CancelBookingRequest(BaseModel)]. *)
Record CancelBookingRequest : Type := mkCancel {
  c_class_id : string;
  c_user_id : string
}.

(** One document of [booking_collection].  Either array may be missing:
    an upsert creates the document with the pushed array only. *)
Record BookingDoc : Type := mkBookingDoc {
  bd_class_id : string;
  bd_bookings : option (list Booking);
  bd_waitlist : option (list Booking)
}.

(** The database [roadmap_builder]. *)
Record DB : Type := mkDB {
  roadmaps_collection : list UserRoadmaps;
  class_collection : list ClassList;
  booking_collection : list BookingDoc
}.

Definition empty_db : DB := mkDB [] [] [].

(** [booking_data["class_name"] = ...] on the dict of a [Booking]. *)
Definition set_class_name (b : Booking) (n : string) : Booking :=
  mkBooking (b_class_id b) n (b_user_name b) (b_user_id b) (b_booking_date b).

(** Equality of two array elements, as [$pull] with a document value
    decides it: same fields, same values. *)
Definition Booking_eqb (x y : Booking) : bool :=
  String.eqb (b_class_id x) (b_class_id y)
  && String.eqb (b_class_name x) (b_class_name y)
  && String.eqb (b_user_name x) (b_user_name y)
  && String.eqb (b_user_id x) (b_user_id y)
  && String.eqb (b_booking_date x) (b_booking_date y).

(** [doc.get(key, [])] on an array field. *)
Definition get_list (o : option (list Booking)) : list Booking :=
  match o with Some l => l | None => [] end.

(* ================================================================= *)
(** ** Exceptions and the handler monad *)

(** [HTTPException(status_code=..., detail=...)]. *)
Record HTTPException : Type := mkHTTPException {
  status_code : Z;
  detail : string
}.

(** The exceptions a handler can meet: the [HTTPException]s it raises
    itself, and the [OverflowError] the driver raises when it is given an
    integer that does not fit the store's 8-byte integers.  Other storage
    faults (lost connection, document size) are not modelled. *)
Inductive Exception : Type :=
| HTTPError (e : HTTPException)
| OverflowError (message : string).

Coercion HTTPError : HTTPException >-> Exception.

Inductive outcome (A : Type) : Type :=
| Returned (a : A)
| Raised (e : Exception).
Arguments Returned {A} a.
Arguments Raised {A} e.

(** A handler reads and writes the store and either returns or raises;
    writes made before a [raise] stay in the store. *)
Definition M (A : Type) : Type := DB -> outcome A * DB.

Definition ret {A} (a : A) : M A := fun db => (Returned a, db).

Definition raise {A} (e : Exception) : M A := fun db => (Raised e, db).

Definition bind {A B} (m : M A) (k : A -> M B) : M B :=
  fun db =>
    match m db with
    | (Returned a, db') => k a db'
    | (Raised e, db') => (Raised e, db')
    end.

(** [try: m  except Exception as e: h e].  [HTTPException] derives from
    [Exception], so the handler sees it too. *)
Definition try_except {A} (m : M A) (h : Exception -> M A) : M A :=
  fun db =>
    match m db with
    | (Returned a, db') => (Returned a, db')
    | (Raised e, db') => h e db'
    end.

Notation "x <- m ;; k" := (bind m (fun x => k))
  (at level 61, m at next level, right associativity).
Notation "m ;;; k" := (bind m (fun _ => k))
  (at level 61, right associativity).

(* ================================================================= *)
(** ** What the store can encode *)

(** An integer fits the store when it fits 8 bytes, signed. *)
Definition int64_ok (n : Z) : bool :=
  (-9223372036854775808 <=? n) && (n <=? 9223372036854775807).

(** A payload can be encoded when every integer in it, at any depth,
    fits. *)
Fixpoint bson_ok (j : Json) : bool :=
  match j with
  | JNull | JBool _ | JStr _ => true
  | JInt n => int64_ok n
  | JList l => forallb bson_ok l
  | JDict fields => forallb (fun kv => bson_ok (snd kv)) fields
  end.

Definition payload_ok (l : list Json) : bool := forallb bson_ok l.

Definition Roadmap_ok (r : Roadmap) : bool :=
  payload_ok (nodes r) && payload_ok (edges r).

Definition ClassList_ok (c : ClassList) : bool :=
  int64_ok (total_slots c) && int64_ok (bookings c) && int64_ok (waitlist c).

(** What the driver raises, before anything is sent to the store, when
    the document to write holds an integer that does not fit. *)
Definition bson_overflow : Exception :=
  OverflowError "MongoDB can only handle up to 8-byte ints".

(* ================================================================= *)
(** ** The MongoDB operations the handlers use *)

(** The first element satisfying [p] is replaced by its image under [f]:
    [update_one] touches one document, the first match in natural order. *)
Fixpoint update_first {A} (p : A -> bool) (f : A -> A) (l : list A) : list A :=
  match l with
  | [] => []
  | x :: t => if p x then f x :: t else x :: update_first p f t
  end.

(** [UpdateResult]. *)
Record UpdateResult : Type := mkUpdateResult {
  matched_count : Z;
  modified_count : Z
}.

Module Roadmaps.

Definition by_email (e : string) (d : UserRoadmaps) : bool :=
  String.eqb (email d) e.

(** [roadmaps_collection.find_one({"email": e})] *)
Definition find_one (e : string) : M (option UserRoadmaps) :=
  fun db => (Returned (find (by_email e) (roadmaps_collection db)), db).

(** [roadmaps_collection.update_one({"email": e}, {"$set": {"roadmaps": rs}})].
    The driver encodes the whole array [rs] first and raises when it
    cannot; nothing is written then. *)
Definition update_one_set (e : string) (rs : list Roadmap) : M unit :=
  fun db =>
    if forallb Roadmap_ok rs then
      (Returned tt,
       mkDB (update_first (by_email e) (fun d => mkUserRoadmaps (email d) rs)
               (roadmaps_collection db))
            (class_collection db) (booking_collection db))
    else (Raised bson_overflow, db).

(** [roadmaps_collection.insert_one(d)].  The driver encodes [d] first and
    raises when it cannot; nothing is written then. *)
Definition insert_one (d : UserRoadmaps) : M unit :=
  fun db =>
    if forallb Roadmap_ok (roadmaps d) then
      (Returned tt,
       mkDB (roadmaps_collection db ++ [d])
            (class_collection db) (booking_collection db))
    else (Raised bson_overflow, db).

End Roadmaps.

Module Classes.

Definition by_id (cid : string) (c : ClassList) : bool :=
  String.eqb (class_id c) cid.

(** [class_collection.find_one({"class_id": cid})] *)
Definition find_one (cid : string) : M (option ClassList) :=
  fun db => (Returned (find (by_id cid) (class_collection db)), db).

(** [class_collection.insert_one(c)].  The driver encodes [c] first and
    raises when one of its integers does not fit; nothing is written
    then. *)
Definition insert_one (c : ClassList) : M unit :=
  fun db =>
    if ClassList_ok c then
      (Returned tt,
       mkDB (roadmaps_collection db) (class_collection db ++ [c])
            (booking_collection db))
    else (Raised bson_overflow, db).

Definition inc (dbookings dwaitlist : Z) (c : ClassList) : ClassList :=
  mkClassList (class_name c) (class_id c) (class_description c) (icon c)
    (color c) (total_slots c) (bookings c + dbookings)
    (waitlist c + dwaitlist).

(** [class_collection.update_one({"class_id": cid},
      {"$inc": {"bookings": dbookings, "waitlist": dwaitlist}})].
    An increment by zero leaves the document as it is, and a document
    left as it is does not count as modified. *)
Definition update_one_inc (cid : string) (dbookings dwaitlist : Z)
  : M UpdateResult :=
  fun db =>
    let cs := class_collection db in
    let matched := if existsb (by_id cid) cs then 1 else 0 in
    let changed :=
      existsb (by_id cid) cs
      && negb ((dbookings =? 0) && (dwaitlist =? 0)) in
    (Returned (mkUpdateResult matched (if changed then 1 else 0)),
     mkDB (roadmaps_collection db)
          (update_first (by_id cid) (inc dbookings dwaitlist) cs)
          (booking_collection db)).

End Classes.

Module Bookings.

Definition by_id (cid : string) (d : BookingDoc) : bool :=
  String.eqb (bd_class_id d) cid.

Definition user_is (uid : string) (r : Booking) : bool :=
  String.eqb (b_user_id r) uid.

(** The update operators the handlers send. *)
Inductive update_op : Type :=
| PushBookings (r : Booking)        (* {"$push": {"bookings": r}} *)
| PushWaitlist (r : Booking)        (* {"$push": {"waitlist": r}} *)
| PullBookingsUser (uid : string)   (* {"$pull": {"bookings": {"user_id": uid}}} *)
| PullWaitlist (r : Booking).       (* {"$pull": {"waitlist": r}} *)

(** [$push] appends, creating the array when it is missing. *)
Definition push (r : Booking) (o : option (list Booking))
  : option (list Booking) :=
  Some (get_list o ++ [r]).

(** [$pull] removes every element that matches, and does nothing to a
    missing array. *)
Definition pull (p : Booking -> bool) (o : option (list Booking))
  : option (list Booking) :=
  match o with
  | Some l => Some (filter (fun r => negb (p r)) l)
  | None => None
  end.

Definition apply_op (op : update_op) (d : BookingDoc) : BookingDoc :=
  match op with
  | PushBookings r =>
      mkBookingDoc (bd_class_id d) (push r (bd_bookings d)) (bd_waitlist d)
  | PushWaitlist r =>
      mkBookingDoc (bd_class_id d) (bd_bookings d) (push r (bd_waitlist d))
  | PullBookingsUser uid =>
      mkBookingDoc (bd_class_id d) (pull (user_is uid) (bd_bookings d))
        (bd_waitlist d)
  | PullWaitlist r =>
      mkBookingDoc (bd_class_id d) (bd_bookings d)
        (pull (Booking_eqb r) (bd_waitlist d))
  end.

(** Does the operator change the document? *)
Definition op_modifies (op : update_op) (d : BookingDoc) : bool :=
  match op with
  | PushBookings _ | PushWaitlist _ => true
  | PullBookingsUser uid => existsb (user_is uid) (get_list (bd_bookings d))
  | PullWaitlist r => existsb (Booking_eqb r) (get_list (bd_waitlist d))
  end.

Definition apply_ops (ops : list update_op) (d : BookingDoc) : BookingDoc :=
  fold_left (fun acc op => apply_op op acc) ops d.

(** [booking_collection.find_one({"class_id": cid})] *)
Definition find_one (cid : string) : M (option BookingDoc) :=
  fun db => (Returned (find (by_id cid) (booking_collection db)), db).

(** [booking_collection.update_one({"class_id": cid}, ops, upsert=...)].
    With [upsert] and no match, a document holding the filter's
    [class_id] is inserted with the operators applied to it. *)
Definition update_one (cid : string) (ops : list update_op) (upsert : bool)
  : M UpdateResult :=
  fun db =>
    let bs := booking_collection db in
    match find (by_id cid) bs with
    | Some d =>
        (Returned
           (mkUpdateResult 1
              (if existsb (fun op => op_modifies op d) ops then 1 else 0)),
         mkDB (roadmaps_collection db) (class_collection db)
              (update_first (by_id cid) (apply_ops ops) bs))
    | None =>
        (Returned (mkUpdateResult 0 0),
         mkDB (roadmaps_collection db) (class_collection db)
              (if upsert
               then bs ++ [apply_ops ops (mkBookingDoc cid None None)]
               else bs))
    end.

(** [booking_collection.find({"bookings.user_id": uid})] *)
Definition find_by_user (uid : string) : M (list BookingDoc) :=
  fun db =>
    (Returned
       (filter (fun d => existsb (user_is uid) (get_list (bd_bookings d)))
          (booking_collection db)),
     db).

End Bookings.

(* ================================================================= *)
(** ** The request handlers *)

Section Handlers.

(** [str(e)] of a caught [HTTPException]; its text is the web
    framework's. *)
Variable str : HTTPException -> string.

(** [str(e)] of a caught exception: of an [OverflowError], its message. *)
Definition text_of (e : Exception) : string :=
  match e with
  | HTTPError h => str h
  | OverflowError message => message
  end.

(** [GET /] *)
Definition read_root : M string := ret "API is running with no issues".

(** [get_projects_by_email] *)
Definition get_projects_by_email (email : string) : M (list string) :=
  user_roadmaps <- Roadmaps.find_one email ;;
  match user_roadmaps with
  | Some d => ret (map title (roadmaps d))
  | None => ret []
  end.

(** [GET /projects/{email}] *)
Definition get_projects (email : string) : M (list string) :=
  try_except
    (get_projects_by_email email)
    (fun e => raise (mkHTTPException 500
                       ("Failed to fetch projects: " ++ text_of e))).

(** The [for ... else] of [save_roadmap]: the first roadmap with the
    title gets the new nodes and edges ([break]); when the loop runs to
    its end, a new roadmap is appended. *)
Fixpoint set_or_append (project_title : string) (nodes edges : list Json)
    (rs : list Roadmap) : list Roadmap :=
  match rs with
  | [] => [mkRoadmap project_title nodes edges]
  | roadmap :: rest =>
      if String.eqb (title roadmap) project_title
      then mkRoadmap (title roadmap) nodes edges :: rest
      else roadmap :: set_or_append project_title nodes edges rest
  end.

(** [save_roadmap] *)
Definition save_roadmap (user_email project_title : string)
    (nodes edges : list Json) : M unit :=
  user_roadmaps <- Roadmaps.find_one user_email ;;
  match user_roadmaps with
  | Some d =>
      Roadmaps.update_one_set user_email
        (set_or_append project_title nodes edges (roadmaps d))
  | None =>
      Roadmaps.insert_one
        (mkUserRoadmaps user_email [mkRoadmap project_title nodes edges])
  end.

(** [POST /roadmap/save] *)
Definition save_roadmap_handler (user_email project_title : string)
    (nodes edges : list Json) : M string :=
  try_except
    (save_roadmap user_email project_title nodes edges ;;;
     ret "Roadmap saved successfully")
    (fun e => raise (mkHTTPException 500
                       ("Failed to save roadmap: " ++ text_of e))).

(** [GET /roadmap/fetch/{email}/{project_title}].  The [raise] of the
    404 stands inside the [try], under [except Exception]. *)
Definition fetch_roadmap (email project_title : string)
  : M (list Json * list Json) :=
  try_except
    (user_roadmaps <- Roadmaps.find_one email ;;
     match user_roadmaps with
     | Some d =>
         match find (fun roadmap => String.eqb (title roadmap) project_title)
                 (roadmaps d) with
         | Some roadmap => ret (nodes roadmap, edges roadmap)
         | None => raise (mkHTTPException 404 "Roadmap not found")
         end
     | None => raise (mkHTTPException 404 "Roadmap not found")
     end)
    (fun e => raise (mkHTTPException 500
                       ("Failed to fetch roadmap: " ++ text_of e))).

(** [GET /class_list/]: every class document.  The store-assigned [_id],
    which the handler turns into a string, is not part of the model. *)
Definition fetch_class_list : M (list ClassList) :=
  try_except
    (fun db => (Returned (class_collection db), db))
    (fun e => raise (mkHTTPException 500 (text_of e))).

End Handlers.

(** [POST /create_class/] *)
Definition create_class (class_data : ClassList) : M string :=
  existing <- Classes.find_one (class_id class_data) ;;
  match existing with
  | Some _ => raise (mkHTTPException 400 "Class ID already exists")
  | None =>
      Classes.insert_one class_data ;;;
      ret "Class created successfully"
  end.

(** [POST /book_slot/] *)
Definition book_slot (booking : Booking) : M string :=
  class_info <- Classes.find_one (b_class_id booking) ;;
  match class_info with
  | None => raise (mkHTTPException 404 "Class not found")
  | Some class_info =>
      let booking_data := set_class_name booking (class_name class_info) in
      if total_slots class_info <=? bookings class_info then
        Bookings.update_one (b_class_id booking)
          [Bookings.PushWaitlist booking_data] true ;;;
        Classes.update_one_inc (b_class_id booking) 0 1 ;;;
        ret "Added to waitlist"
      else
        Bookings.update_one (b_class_id booking)
          [Bookings.PushBookings booking_data] true ;;;
        Classes.update_one_inc (b_class_id booking) 1 0 ;;;
        ret "Booking confirmed"
  end.

(** [len(...)] as a Python integer. *)
Definition len {A} (l : list A) : Z := Z.of_nat (List.length l).

(** [POST /cancel_booking/] *)
Definition cancel_booking (request : CancelBookingRequest) : M string :=
  let class_id := c_class_id request in
  let user_id := c_user_id request in
  booking_info <- Bookings.find_one class_id ;;
  match booking_info with
  | None => raise (mkHTTPException 404 "Class not found")
  | Some booking_info =>
      let current_bookings_count := len (get_list (bd_bookings booking_info)) in
      result <- Bookings.update_one class_id
                  [Bookings.PullBookingsUser user_id] false ;;
      if modified_count result =? 0 then
        raise (mkHTTPException 404 "Booking not found")
      else
        reread <- Bookings.find_one class_id ;;
        match reread with
        | None =>
            (* [None.get]: an AttributeError, answered with a bare 500;
               documents are never deleted, so this branch is not taken *)
            raise (mkHTTPException 500 "Internal Server Error")
        | Some after =>
            let bookings_removed :=
              current_bookings_count - len (get_list (bd_bookings after)) in
            update_result <-
              Classes.update_one_inc class_id (- bookings_removed) 0 ;;
            if modified_count update_result =? 0 then
              raise (mkHTTPException 500 "Failed to update class bookings")
            else
              match get_list (bd_waitlist booking_info) with
              | waitlist_entry :: _ =>
                  Bookings.update_one class_id
                    [Bookings.PushBookings waitlist_entry;
                     Bookings.PullWaitlist waitlist_entry] false ;;;
                  Classes.update_one_inc class_id 1 (-1) ;;;
                  ret "Booking canceled, waitlist updated"
              | [] => ret "Booking canceled successfully"
              end
        end
  end.

(** One element of the ["user_bookings"] answer. *)
Record UserBooking : Type := mkUserBooking {
  ub_class_id : string;
  ub_class_name : string;
  ub_booking_date : string
}.

(** [GET /user_bookings/{user_id}] *)
Definition fetch_user_bookings (user_id : string) : M (list UserBooking) :=
  found <- Bookings.find_by_user user_id ;;
  let results :=
    flat_map
      (fun class_info =>
         map (fun booking =>
                mkUserBooking (bd_class_id class_info) (b_class_name booking)
                  (b_booking_date booking))
             (filter (Bookings.user_is user_id)
                (get_list (bd_bookings class_info))))
      found in
  match results with
  | [] => raise (mkHTTPException 404 "No bookings found for this user")
  | _ => ret results
  end.

(* ================================================================= *)
(** ** Reading the store *)

(** The class document [find_one] answers with. *)
Definition class_of (db : DB) (cid : string) : option ClassList :=
  find (Classes.by_id cid) (class_collection db).

(** The booking document [find_one] answers with. *)
Definition booking_of (db : DB) (cid : string) : option BookingDoc :=
  find (Bookings.by_id cid) (booking_collection db).

Definition bookings_list (db : DB) (cid : string) : list Booking :=
  match booking_of db cid with
  | Some d => get_list (bd_bookings d)
  | None => []
  end.

Definition waitlist_list (db : DB) (cid : string) : list Booking :=
  match booking_of db cid with
  | Some d => get_list (bd_waitlist d)
  | None => []
  end.

(** The roadmaps of the user document [find_one] answers with. *)
Definition roadmaps_of (db : DB) (e : string) : list Roadmap :=
  match find (Roadmaps.by_email e) (roadmaps_collection db) with
  | Some d => roadmaps d
  | None => []
  end.

Definition titled (t : string) (r : Roadmap) : bool := String.eqb (title r) t.

(** Every confirmed reservation of [uid], paired with the [class_id] of the
    booking document that holds it. *)
Definition confirmed_of (db : DB) (uid : string) : list (string * Booking) :=
  flat_map
    (fun d => map (pair (bd_class_id d))
                (filter (Bookings.user_is uid) (get_list (bd_bookings d))))
    (booking_collection db).

Definition user_booking_of (x : string * Booking) : UserBooking :=
  mkUserBooking (fst x) (b_class_name (snd x)) (b_booking_date (snd x)).

(* ================================================================= *)
(** ** Serial runs *)

(** The requests that write to the store. *)
Inductive Op : Type :=
| SaveRoadmap (user_email project_title : string) (nodes edges : list Json)
| RegisterClass (class_data : ClassList)
| BookSlot (booking : Booking)
| CancelBooking (request : CancelBookingRequest).

Definition step (op : Op) (db : DB) : DB :=
  match op with
  | SaveRoadmap e t n ed => snd (save_roadmap e t n ed db)
  | RegisterClass c => snd (create_class c db)
  | BookSlot b => snd (book_slot b db)
  | CancelBooking r => snd (cancel_booking r db)
  end.

(** One request after another, each on the store the previous one left. *)
Definition run (ops : list Op) (db : DB) : DB :=
  fold_left (fun acc op => step op acc) ops db.

(* ================================================================= *)
(** ** Invariants *)

(** Counters and arrays of one class agree. *)
Definition in_sync (db : DB) (cid : string) : Prop :=
  forall c, class_of db cid = Some c ->
    bookings c = len (bookings_list db cid)
    /\ waitlist c = len (waitlist_list db cid).

(** Counters and arrays agree for every class, and only a registered class
    has a booking document. *)
Definition engine_inv (db : DB) : Prop :=
  forall cid,
    match class_of db cid with
    | Some c =>
        bookings c = len (bookings_list db cid)
        /\ waitlist c = len (waitlist_list db cid)
    | None => booking_of db cid = None
    end.

(** The head of the list occurs nowhere else in it. *)
Definition head_unique (l : list Booking) : bool :=
  match l with
  | [] => true
  | h :: t => negb (existsb (Booking_eqb h) t)
  end.

(** Requests under which the counters are kept: a registration that leaves
    the counters at their default 0, and a cancellation that meets a
    waitlist whose head is not repeated. *)
Definition admissible (db : DB) (op : Op) : Prop :=
  match op with
  | RegisterClass c => bookings c = 0 /\ waitlist c = 0
  | CancelBooking r => head_unique (waitlist_list db (c_class_id r)) = true
  | SaveRoadmap _ _ _ _ | BookSlot _ => True
  end.

Fixpoint admissible_run (db : DB) (ops : list Op) : Prop :=
  match ops with
  | [] => True
  | op :: rest => admissible db op /\ admissible_run (step op db) rest
  end.

(** Emails name one document each, and titles one roadmap each within a
    document. *)
Definition roadmaps_wf (db : DB) : Prop :=
  NoDup (map email (roadmaps_collection db))
  /\ Forall (fun d => NoDup (map title (roadmaps d))) (roadmaps_collection db).

(* ================================================================= *)
(** ** Sample data *)

(** A class with one seat. *)
Definition yoga : ClassList :=
  mkClassList "Yoga" "c1" "Morning yoga" "lotus" "green" 1 0 0.

(** Three users asking for it on the same day; the class name they send
    is replaced by the one of the class record. *)
Definition reserve (user_id user_name : string) : Booking :=
  mkBooking "c1" "yoga" user_name user_id "2024-05-01".

Definition ann : Booking := reserve "u1" "Ann".
Definition bob : Booking := reserve "u2" "Bob".
Definition cat : Booking := reserve "u3" "Cat".

(** The reservation as stored: with the class name of the class record. *)
Definition stored (b : Booking) : Booking := set_class_name b "Yoga".

(** The store after the class is registered and Ann holds its only seat. *)
Definition seat_taken : DB := run [RegisterClass yoga; BookSlot ann] empty_db.

(** A booking document whose class record is missing. *)
Definition orphan_db : DB :=
  mkDB [] [] [mkBookingDoc "c1" (Some [ann; bob]) (Some [cat])].

(* ================================================================= *)
(** ** Further notions *)

(** What a class record is registered with, apart from its two counters. *)
Definition static (c : ClassList)
  : string * string * string * string * string * Z :=
  (class_name c, class_id c, class_description c, icon c, color c,
   total_slots c).

(** A registration that leaves both counters at their default 0. *)
Definition fresh_registration (op : Op) : Prop :=
  match op with
  | RegisterClass c => bookings c = 0 /\ waitlist c = 0
  | SaveRoadmap _ _ _ _ | BookSlot _ | CancelBooking _ => True
  end.

(** The seats of every class: the bookings counter is the length of the
    bookings array and at most the capacity, the waitlist counter is at
    least the length of the waitlist array, and only a registered class has
    a booking document. *)
Definition seats_inv (db : DB) : Prop :=
  forall cid,
    match class_of db cid with
    | Some c =>
        bookings c = len (bookings_list db cid)
        /\ len (waitlist_list db cid) <= waitlist c
        /\ bookings c <= Z.max (total_slots c) 0
    | None => booking_of db cid = None
    end.

(** Each [class_id] names one class document and one booking document. *)
Definition ids_unique (db : DB) : Prop :=
  NoDup (map class_id (class_collection db))
  /\ NoDup (map bd_class_id (booking_collection db)).

(** The request is a save under this email and title. *)
Definition saves_to (e t : string) (op : Op) : bool :=
  match op with
  | SaveRoadmap e' t' _ _ => String.eqb e' e && String.eqb t' t
  | RegisterClass _ | BookSlot _ | CancelBooking _ => false
  end.

(** The store in which the document of [e] holds the roadmaps [rs]: the
    first document with that email gets them, or, when there is none, a
    new document is appended. *)
Definition with_roadmaps (db : DB) (e : string) (rs : list Roadmap) : DB :=
  mkDB
    (match find (Roadmaps.by_email e) (roadmaps_collection db) with
     | Some _ =>
         update_first (Roadmaps.by_email e)
           (fun d => mkUserRoadmaps (email d) rs) (roadmaps_collection db)
     | None => roadmaps_collection db ++ [mkUserRoadmaps e rs]
     end)
    (class_collection db) (booking_collection db).


(** A payload with an integer one past the largest the store can hold. *)
Definition too_big : list Json :=
  [JDict [("x", JInt 9223372036854775808)]].

(* ================================================================= *)
(** * Properties *)

(* ================================================================= *)
(** ** Lists of documents *)

Section FirstMatch.

Context {A : Type}.
Variables (p : A -> bool) (f : A -> A).

Lemma find_app_one (l : list A) (x : A) :
  find p (l ++ [x]) =
  match find p l with
  | Some y => Some y
  | None => if p x then Some x else None
  end.
Proof.
  induction l as [|y l IH]; simpl.
  - reflexivity.
  - destruct (p y); [reflexivity | exact IH].
Qed.

Lemma update_first_none (l : list A) :
  find p l = None -> update_first p f l = l.
Proof.
  induction l as [|y l IH]; simpl; intros H.
  - reflexivity.
  - destruct (p y); [discriminate | now rewrite IH].
Qed.

Lemma find_update_first (l : list A) :
  (forall x, p x = true -> p (f x) = true) ->
  find p (update_first p f l) = option_map f (find p l).
Proof.
  intros Hp. induction l as [|y l IH]; simpl.
  - reflexivity.
  - destruct (p y) eqn:E; simpl.
    + now rewrite (Hp y E).
    + now rewrite E.
Qed.

(** Updating the first match of [q] is invisible to a search by [p]
    when no element, before or after the update, satisfies both. *)
Lemma find_update_first_frame (q : A -> bool) (l : list A) :
  (forall x, q x = true -> p x = false /\ p (f x) = false) ->
  find p (update_first q f l) = find p l.
Proof.
  intros Hq. induction l as [|y l IH]; simpl.
  - reflexivity.
  - destruct (q y) eqn:E; simpl.
    + destruct (Hq y E) as [-> ->]. reflexivity.
    + now rewrite IH.
Qed.

Lemma existsb_find_some (l : list A) :
  existsb p l = true <-> find p l <> None.
Proof.
  induction l as [|y l IH]; simpl.
  - split; [discriminate | congruence].
  - destruct (p y); simpl; [split; [discriminate | reflexivity] | exact IH].
Qed.

Lemma filter_nil_existsb (l : list A) :
  existsb p l = false -> filter p l = [].
Proof.
  induction l as [|y l IH]; simpl.
  - reflexivity.
  - destruct (p y); simpl; [discriminate | exact IH].
Qed.

End FirstMatch.

Lemma find_app_other {A} (p : A -> bool) (l : list A) (x : A) :
  p x = false -> find p (l ++ [x]) = find p l.
Proof.
  intros Hx. rewrite find_app_one, Hx. now destruct (find p l).
Qed.

Lemma Booking_eqb_eq (x y : Booking) : Booking_eqb x y = true <-> x = y.
Proof.
  unfold Booking_eqb. rewrite !andb_true_iff, !String.eqb_eq.
  destruct x, y; simpl. split.
  - intros [[[[-> ->] ->] ->] ->]. reflexivity.
  - intros H. injection H as -> -> -> -> ->. repeat split.
Qed.

Lemma Booking_eqb_refl (x : Booking) : Booking_eqb x x = true.
Proof. now apply Booking_eqb_eq. Qed.

(* ================================================================= *)
(** ** Class registration *)

(** A registration whose integers the store can encode leaves the class
    registered, whether it succeeded or met a class of that [class_id]. *)
Lemma create_class_registers (class_data : ClassList) (db : DB) :
  ClassList_ok class_data = true ->
  class_of (snd (create_class class_data db)) (class_id class_data) <> None.
Proof.
  intros Hok.
  unfold create_class, bind, Classes.find_one, Classes.insert_one, class_of;
    simpl.
  destruct (find _ (class_collection db)) eqn:E; simpl.
  - congruence.
  - rewrite Hok; simpl. rewrite find_app_one, E. unfold Classes.by_id.
    rewrite String.eqb_refl. discriminate.
Qed.

(** A registration under a [class_id] that is taken raises and writes
    nothing. *)
Lemma create_class_existing (class_data : ClassList) (db : DB) :
  class_of db (class_id class_data) <> None ->
  create_class class_data db =
  (Raised (mkHTTPException 400 "Class ID already exists"), db).
Proof.
  unfold create_class, bind, Classes.find_one, class_of; simpl.
  destruct (find _ (class_collection db)); [reflexivity | congruence].
Qed.

(** The second of two registrations with one [class_id], from any store. *)
Lemma create_class_twice (c1 c2 : ClassList) (db : DB) :
  ClassList_ok c1 = true ->
  class_id c2 = class_id c1 ->
  let db1 := snd (create_class c1 db) in
  create_class c2 db1 =
  (Raised (mkHTTPException 400 "Class ID already exists"), db1).
Proof.
  intros Hok Hid db1. apply create_class_existing. rewrite Hid.
  now apply create_class_registers.
Qed.

(** C5: registering a [class_id] that already exists is answered with
    HTTP 400 "Class ID already exists" (DuplicateKey), and the whole store
    after the failed call is the store before it: no class record and no
    booking document is created or changed. *)
Theorem create_class_duplicate (class_data : ClassList) (db : DB) :
  class_of db (class_id class_data) <> None ->
  fst (create_class class_data db)
  = Raised (mkHTTPException 400 "Class ID already exists")
  /\ snd (create_class class_data db) = db.
Proof.
  intros H. now rewrite (create_class_existing class_data db H).
Qed.

Lemma create_class_duplicate_witness :
  let db1 := snd (create_class yoga empty_db) in
  fst (create_class yoga db1)
  = Raised (mkHTTPException 400 "Class ID already exists")
  /\ snd (create_class yoga db1) = db1.
Proof.
  apply (create_class_duplicate yoga (snd (create_class yoga empty_db))).
  vm_compute. discriminate.
Defined.

(* ================================================================= *)
(** ** Roadmap store *)

(** Whatever the store, a fetch that finds no roadmap ends in the
    [except] branch: the answer is a 500, never a 404. *)
Lemma fetch_roadmap_no_match (str : HTTPException -> string)
    (email project_title : string) (db : DB) :
  find (titled project_title) (roadmaps_of db email) = None ->
  fetch_roadmap str email project_title db =
  (Raised (mkHTTPException 500
             ("Failed to fetch roadmap: "
              ++ str (mkHTTPException 404 "Roadmap not found"))), db).
Proof.
  unfold fetch_roadmap, try_except, bind, Roadmaps.find_one, roadmaps_of.
  simpl. destruct (find _ (roadmaps_collection db)) as [d|]; simpl.
  - unfold titled. intros ->. reflexivity.
  - reflexivity.
Qed.

(** A fetch that finds a roadmap answers with its nodes and edges. *)
Lemma fetch_roadmap_match (str : HTTPException -> string)
    (email project_title : string) (db : DB) (r : Roadmap) :
  find (titled project_title) (roadmaps_of db email) = Some r ->
  fetch_roadmap str email project_title db = (Returned (nodes r, edges r), db).
Proof.
  unfold fetch_roadmap, try_except, bind, Roadmaps.find_one, roadmaps_of.
  simpl. destruct (find _ (roadmaps_collection db)) as [d|]; simpl.
  - unfold titled. intros ->. reflexivity.
  - discriminate.
Qed.

(** C6, at the failing input: with nothing stored, fetching the roadmap
    ["plan"] of ["ann@example.org"] is answered with status 500 and the
    detail "Failed to fetch roadmap: ...", not with the 404 "Roadmap not
    found" that the handler raises first: the [except] branch around it
    catches that exception and raises the 500 in its place. *)
Theorem fetch_roadmap_missing_is_500 (str : HTTPException -> string) :
  fetch_roadmap str "ann@example.org" "plan" empty_db =
  (Raised (mkHTTPException 500
             ("Failed to fetch roadmap: "
              ++ str (mkHTTPException 404 "Roadmap not found"))), empty_db).
Proof. reflexivity. Qed.

(* ================================================================= *)
(** ** Listing a user's bookings *)

Lemma fetch_user_bookings_results (uid : string) (l : list BookingDoc) :
  flat_map
    (fun class_info =>
       map (fun booking =>
              mkUserBooking (bd_class_id class_info) (b_class_name booking)
                (b_booking_date booking))
           (filter (Bookings.user_is uid) (get_list (bd_bookings class_info))))
    (filter (fun d => existsb (Bookings.user_is uid) (get_list (bd_bookings d)))
       l)
  = map user_booking_of
      (flat_map
         (fun d => map (pair (bd_class_id d))
                     (filter (Bookings.user_is uid) (get_list (bd_bookings d))))
         l).
Proof.
  induction l as [|d l IH]; simpl.
  - reflexivity.
  - rewrite map_app, map_map; simpl.
    destruct (existsb _ (get_list (bd_bookings d))) eqn:E; simpl.
    + now rewrite IH.
    + rewrite (filter_nil_existsb _ _ E); simpl. exact IH.
Qed.

(** C7: the listing holds one [{class_id, class_name, booking_date}] entry
    per confirmed reservation of the user, over all booking documents, in
    store order; waitlists are not read; and with no confirmed reservation
    the answer is HTTP 404, not an empty list.  The store is left as it is. *)
Theorem fetch_user_bookings_spec (user_id : string) (db : DB) :
  fetch_user_bookings user_id db =
  (match confirmed_of db user_id with
   | [] => Raised (mkHTTPException 404 "No bookings found for this user")
   | _ :: _ => Returned (map user_booking_of (confirmed_of db user_id))
   end, db).
Proof.
  unfold fetch_user_bookings, bind, Bookings.find_by_user, confirmed_of.
  simpl. rewrite fetch_user_bookings_results.
  destruct (flat_map _ (booking_collection db)); reflexivity.
Qed.

(** A user who is on a waitlist only has no listing: the answer is 404. *)
Example waitlisted_only_is_not_listed :
  let db := run [BookSlot bob] seat_taken in
  waitlist_list db "c1" = [stored bob]
  /\ fetch_user_bookings "u2" db
     = (Raised (mkHTTPException 404 "No bookings found for this user"), db)
  /\ fst (fetch_user_bookings "u1" db)
     = Returned [mkUserBooking "c1" "Yoga" "2024-05-01"].
Proof. repeat split. Qed.

(* ================================================================= *)
(** ** Saving a roadmap *)

Section UpdateFirst.

Context {A : Type}.
Variables (p : A -> bool) (f g : A -> A).



Lemma map_update_first {B} (h : A -> B) (l : list A) :
  (forall x, h (f x) = h x) -> map h (update_first p f l) = map h l.
Proof.
  intros Hh. induction l as [|y l IH]; simpl.
  - reflexivity.
  - destruct (p y); simpl; [now rewrite Hh | now rewrite IH].
Qed.

Lemma Forall_update_first (P : A -> Prop) (l : list A) :
  (forall x, p x = true -> P x -> P (f x)) ->
  Forall P l -> Forall P (update_first p f l).
Proof.
  intros Hf. induction 1 as [|y l Hy Hl IH]; simpl.
  - constructor.
  - destruct (p y) eqn:E; constructor; auto.
Qed.

End UpdateFirst.


Lemma set_or_append_titles (t : string) (n e : list Json) (rs : list Roadmap)
    (x : string) :
  In x (map title (set_or_append t n e rs)) -> In x (map title rs) \/ x = t.
Proof.
  induction rs as [|r rs IH]; simpl.
  - intros [<- | []]. now right.
  - destruct (String.eqb (title r) t); simpl.
    + intros H. now left.
    + intros [H | H]; [now left; left |].
      destruct (IH H); [left; now right | now right].
Qed.

Lemma set_or_append_NoDup (t : string) (n e : list Json) (rs : list Roadmap) :
  NoDup (map title rs) -> NoDup (map title (set_or_append t n e rs)).
Proof.
  induction rs as [|r rs IH]; simpl; intros H.
  - constructor; [intros [] | constructor].
  - destruct (String.eqb (title r) t) eqn:E; simpl.
    + exact H.
    + inversion H as [|? ? Hnotin Hrest]; subst. constructor.
      * intros Hin. apply set_or_append_titles in Hin as [Hin | Heq].
        -- contradiction.
        -- apply String.eqb_neq in E. contradiction.
      * now apply IH.
Qed.



Lemma find_by_email_none (e : string) (l : list UserRoadmaps) :
  find (Roadmaps.by_email e) l = None -> ~ In e (map email l).
Proof.
  induction l as [|d l IH]; simpl; intros H.
  - intros [].
  - unfold Roadmaps.by_email at 1 in H.
    destruct (String.eqb (email d) e) eqn:E; [discriminate |].
    apply String.eqb_neq in E. intros [Hd | Hl]; [contradiction |].
    now apply IH.
Qed.

(** The run of [save_roadmap]: the roadmaps of the user with the title set
    or appended are written when the store can encode them all, and
    otherwise the driver raises and nothing is written. *)
Lemma save_roadmap_run (e t : string) (n ed : list Json) (db : DB) :
  save_roadmap e t n ed db =
  if forallb Roadmap_ok (set_or_append t n ed (roadmaps_of db e))
  then (Returned tt,
        with_roadmaps db e (set_or_append t n ed (roadmaps_of db e)))
  else (Raised bson_overflow, db).
Proof.
  unfold save_roadmap, bind, Roadmaps.find_one, Roadmaps.update_one_set,
    Roadmaps.insert_one, roadmaps_of, with_roadmaps.
  cbn [fst snd roadmaps_collection class_collection booking_collection].
  destruct (find (Roadmaps.by_email e) (roadmaps_collection db)) as [d|] eqn:E.
  - reflexivity.
  - cbn [roadmaps set_or_append]. reflexivity.
Qed.

Lemma roadmaps_of_with_roadmaps (db : DB) (e : string) (rs : list Roadmap) :
  roadmaps_of (with_roadmaps db e rs) e = rs.
Proof.
  unfold roadmaps_of, with_roadmaps; simpl.
  destruct (find (Roadmaps.by_email e) (roadmaps_collection db)) as [d|] eqn:E.
  - now rewrite find_update_first, E by (intros x Hx; exact Hx).
  - rewrite find_app_one, E. unfold Roadmaps.by_email at 1; simpl.
    now rewrite String.eqb_refl.
Qed.

Lemma roadmaps_of_with_roadmaps_other (db : DB) (e e' : string)
    (rs : list Roadmap) :
  e' <> e -> roadmaps_of (with_roadmaps db e rs) e' = roadmaps_of db e'.
Proof.
  intros Hne. unfold roadmaps_of, with_roadmaps; simpl.
  destruct (find (Roadmaps.by_email e) (roadmaps_collection db)) as [d|] eqn:E.
  - rewrite find_update_first_frame; [reflexivity |].
    intros x Hx. unfold Roadmaps.by_email in *; simpl.
    apply String.eqb_eq in Hx. split; apply String.eqb_neq; congruence.
  - rewrite find_app_other; [reflexivity |].
    unfold Roadmaps.by_email; simpl. apply String.eqb_neq. congruence.
Qed.



Lemma with_roadmaps_wf (db : DB) (e : string) (rs : list Roadmap) :
  roadmaps_wf db -> NoDup (map title rs) -> roadmaps_wf (with_roadmaps db e rs).
Proof.
  intros [Hemails Htitles] Hrs. unfold roadmaps_wf, with_roadmaps; simpl.
  destruct (find (Roadmaps.by_email e) (roadmaps_collection db)) as [d|] eqn:E.
  - split.
    + rewrite map_update_first by reflexivity. exact Hemails.
    + apply Forall_update_first; [| exact Htitles]. intros x _ _. exact Hrs.
  - split.
    + rewrite map_app; simpl. apply NoDup_app; [exact Hemails | | ].
      * constructor; [intros [] | constructor].
      * intros x Hx [<- | []]. now apply (find_by_email_none _ _ E).
    + apply Forall_app. split; [exact Htitles |].
      constructor; [exact Hrs | constructor].
Qed.


Lemma roadmaps_of_NoDup (db : DB) (e : string) :
  roadmaps_wf db -> NoDup (map title (roadmaps_of db e)).
Proof.
  intros [_ Ht]. unfold roadmaps_of.
  destruct (find (Roadmaps.by_email e) (roadmaps_collection db)) as [d|] eqn:E.
  - apply find_some in E as [Hin _].
    rewrite Forall_forall in Ht. now apply Ht.
  - constructor.
Qed.




Lemma save_roadmap_wf (e t : string) (n ed : list Json) (db : DB) :
  roadmaps_wf db -> roadmaps_wf (snd (save_roadmap e t n ed db)).
Proof.
  intros Hwf. rewrite save_roadmap_run.
  destruct (forallb Roadmap_ok _); simpl; [| exact Hwf].
  apply with_roadmaps_wf; [exact Hwf |].
  apply set_or_append_NoDup. now apply roadmaps_of_NoDup.
Qed.




(** The booking engine never writes to the roadmap collection. *)
Ltac run_handler :=
  unfold create_class, book_slot, cancel_booking, bind, ret, raise,
    Classes.find_one, Classes.insert_one, Classes.update_one_inc,
    Bookings.find_one, Bookings.update_one; simpl.

Ltac split_branches :=
  repeat match goal with
         | |- context [match find ?p ?l with _ => _ end] =>
             destruct (find p l); simpl
         | |- context [if ?b then _ else _] => destruct b; simpl
         | |- context [match get_list ?o with _ => _ end] =>
             destruct (get_list o); simpl
         end.

Lemma create_class_roadmaps (c : ClassList) (db : DB) :
  roadmaps_collection (snd (create_class c db)) = roadmaps_collection db.
Proof. run_handler. split_branches; reflexivity. Qed.

Lemma book_slot_roadmaps (b : Booking) (db : DB) :
  roadmaps_collection (snd (book_slot b db)) = roadmaps_collection db.
Proof. run_handler. split_branches; reflexivity. Qed.

Lemma cancel_booking_roadmaps (r : CancelBookingRequest) (db : DB) :
  roadmaps_collection (snd (cancel_booking r db)) = roadmaps_collection db.
Proof. run_handler. split_branches; reflexivity. Qed.

Lemma step_roadmaps_wf (op : Op) (db : DB) :
  roadmaps_wf db -> roadmaps_wf (step op db).
Proof.
  destruct op; simpl.
  - apply save_roadmap_wf.
  - unfold roadmaps_wf. now rewrite create_class_roadmaps.
  - unfold roadmaps_wf. now rewrite book_slot_roadmaps.
  - unfold roadmaps_wf. now rewrite cancel_booking_roadmaps.
Qed.

Lemma run_roadmaps_wf (ops : list Op) (db : DB) :
  roadmaps_wf db -> roadmaps_wf (run ops db).
Proof.
  revert db. induction ops as [|op ops IH]; simpl; intros db H.
  - exact H.
  - apply IH. now apply step_roadmaps_wf.
Qed.

Lemma empty_db_roadmaps_wf : roadmaps_wf empty_db.
Proof. split; constructor. Qed.








(* ================================================================= *)
(** ** Booking documents under update *)

Lemma apply_op_class_id (op : Bookings.update_op) (d : BookingDoc) :
  bd_class_id (Bookings.apply_op op d) = bd_class_id d.
Proof. destruct op; reflexivity. Qed.

Lemma apply_ops_class_id (ops : list Bookings.update_op) (d : BookingDoc) :
  bd_class_id (Bookings.apply_ops ops d) = bd_class_id d.
Proof.
  unfold Bookings.apply_ops. revert d.
  induction ops as [|op ops IH]; simpl; intros d.
  - reflexivity.
  - now rewrite IH, apply_op_class_id.
Qed.

Lemma find_booking_updated (cid : string) (ops : list Bookings.update_op)
    (bs : list BookingDoc) :
  find (Bookings.by_id cid)
    (update_first (Bookings.by_id cid) (Bookings.apply_ops ops) bs)
  = option_map (Bookings.apply_ops ops) (find (Bookings.by_id cid) bs).
Proof.
  apply find_update_first. intros x Hx. unfold Bookings.by_id in *.
  now rewrite apply_ops_class_id.
Qed.

Lemma find_class_inc (cid : string) (a b : Z) (cs : list ClassList) :
  find (Classes.by_id cid)
    (update_first (Classes.by_id cid) (Classes.inc a b) cs)
  = option_map (Classes.inc a b) (find (Classes.by_id cid) cs).
Proof. apply find_update_first. intros x Hx. exact Hx. Qed.

Lemma update_first_fixed {A} (p : A -> bool) (f : A -> A) (l : list A) (d : A) :
  find p l = Some d -> f d = d -> update_first p f l = l.
Proof.
  intros Hd Hf. induction l as [|y l IH]; simpl in *.
  - reflexivity.
  - destruct (p y).
    + injection Hd as ->. now rewrite Hf.
    + now rewrite IH.
Qed.

Lemma filter_all {A} (p : A -> bool) (l : list A) :
  existsb p l = false -> filter (fun x => negb (p x)) l = l.
Proof.
  induction l as [|y l IH]; simpl.
  - reflexivity.
  - destruct (p y); simpl; [discriminate | intros H; now rewrite IH].
Qed.

(** What [$pull] keeps and what it removes add up to the array. *)
Lemma len_filter_split {A} (p : A -> bool) (l : list A) :
  len l = len (filter (fun x => negb (p x)) l) + len (filter p l).
Proof.
  assert (H : List.length l
              = (List.length (filter (fun x => negb (p x)) l)
                 + List.length (filter p l))%nat).
  { induction l as [|y l IH]; simpl.
    - reflexivity.
    - destruct (p y); simpl; lia. }
  unfold len. lia.
Qed.

Lemma len_filter_pos {A} (p : A -> bool) (l : list A) :
  existsb p l = true -> 0 < len (filter p l).
Proof.
  intros H. assert (Hn : (0 < List.length (filter p l))%nat).
  { induction l as [|y l IH]; simpl in *.
    - discriminate.
    - destruct (p y); simpl in *; [lia | now apply IH]. }
  unfold len. lia.
Qed.

Lemma pull_unmatched (uid : string) (d : BookingDoc) :
  existsb (Bookings.user_is uid) (get_list (bd_bookings d)) = false ->
  Bookings.apply_ops [Bookings.PullBookingsUser uid] d = d.
Proof.
  destruct d as [cid [bl|] wl]; simpl; intros H.
  - unfold Bookings.apply_ops; simpl. now rewrite filter_all.
  - reflexivity.
Qed.

Lemma get_list_pull (p : Booking -> bool) (o : option (list Booking)) :
  get_list (Bookings.pull p o) = filter (fun r => negb (p r)) (get_list o).
Proof. destruct o; reflexivity. Qed.

(* ================================================================= *)
(** ** Booking a slot *)



(* ================================================================= *)
(** ** Cancelling a booking *)

Lemma cancel_booking_no_record (request : CancelBookingRequest) (db : DB) :
  booking_of db (c_class_id request) = None ->
  cancel_booking request db =
  (Raised (mkHTTPException 404 "Class not found"), db).
Proof.
  unfold booking_of, cancel_booking, bind, Bookings.find_one; simpl.
  intros ->. reflexivity.
Qed.

Lemma cancel_booking_unmatched (request : CancelBookingRequest) (db : DB)
    (bi : BookingDoc) :
  booking_of db (c_class_id request) = Some bi ->
  existsb (Bookings.user_is (c_user_id request)) (get_list (bd_bookings bi))
    = false ->
  cancel_booking request db =
  (Raised (mkHTTPException 404 "Booking not found"), db).
Proof.
  unfold booking_of, cancel_booking, bind, Bookings.find_one,
    Bookings.update_one; simpl.
  intros Hb Hm. rewrite Hb; simpl. rewrite Hb; simpl. rewrite Hm; simpl.
  rewrite (update_first_fixed _ _ _ bi Hb (pull_unmatched _ _ Hm)).
  destruct db; reflexivity.
Qed.

(** The store after the [$pull] of the user's confirmed reservations. *)
Lemma removed_count (uid : string) (bi : BookingDoc) :
  len (get_list (bd_bookings bi))
  - len (get_list
           (bd_bookings
              (Bookings.apply_ops [Bookings.PullBookingsUser uid] bi)))
  = len (filter (Bookings.user_is uid) (get_list (bd_bookings bi))).
Proof.
  unfold Bookings.apply_ops; simpl. rewrite get_list_pull.
  rewrite (len_filter_split (Bookings.user_is uid) (get_list (bd_bookings bi))).
  lia.
Qed.

Lemma cancel_booking_no_class (request : CancelBookingRequest) (db : DB)
    (bi : BookingDoc) :
  booking_of db (c_class_id request) = Some bi ->
  existsb (Bookings.user_is (c_user_id request)) (get_list (bd_bookings bi))
    = true ->
  class_of db (c_class_id request) = None ->
  cancel_booking request db =
  (Raised (mkHTTPException 500 "Failed to update class bookings"),
   mkDB (roadmaps_collection db) (class_collection db)
     (update_first (Bookings.by_id (c_class_id request))
        (Bookings.apply_ops [Bookings.PullBookingsUser (c_user_id request)])
        (booking_collection db))).
Proof.
  unfold booking_of, class_of, cancel_booking, bind, Bookings.find_one,
    Bookings.update_one, Classes.update_one_inc; simpl.
  intros Hb Hm Hc. rewrite Hb; simpl. rewrite Hb; simpl. rewrite Hm; simpl.
  rewrite find_booking_updated, Hb; simpl.
  assert (He : existsb (Classes.by_id (c_class_id request))
                 (class_collection db) = false).
  { destruct (existsb _ (class_collection db)) eqn:E; [| reflexivity].
    apply existsb_find_some in E. contradiction. }
  rewrite He; simpl. now rewrite (update_first_none _ _ _ Hc).
Qed.

(** The run of [cancel_booking] when the user holds a confirmed
    reservation and the class record exists: the [$pull], the decrement by
    the number of removed reservations, and then the promotion of the head
    of the waitlist read at the start, if there is one. *)
Lemma cancel_booking_run (request : CancelBookingRequest) (db : DB)
    (bi : BookingDoc) (c : ClassList) :
  let cid := c_class_id request in
  let uid := c_user_id request in
  booking_of db cid = Some bi ->
  existsb (Bookings.user_is uid) (get_list (bd_bookings bi)) = true ->
  class_of db cid = Some c ->
  let removed := len (filter (Bookings.user_is uid) (get_list (bd_bookings bi))) in
  let cs2 := update_first (Classes.by_id cid) (Classes.inc (- removed) 0)
               (class_collection db) in
  let bs2 := update_first (Bookings.by_id cid)
               (Bookings.apply_ops [Bookings.PullBookingsUser uid])
               (booking_collection db) in
  cancel_booking request db =
  match get_list (bd_waitlist bi) with
  | [] =>
      (Returned "Booking canceled successfully",
       mkDB (roadmaps_collection db) cs2 bs2)
  | h :: _ =>
      (Returned "Booking canceled, waitlist updated",
       mkDB (roadmaps_collection db)
         (update_first (Classes.by_id cid) (Classes.inc 1 (-1)) cs2)
         (update_first (Bookings.by_id cid)
            (Bookings.apply_ops
               [Bookings.PushBookings h; Bookings.PullWaitlist h]) bs2))
  end.
Proof.
  intros cid uid Hb Hm Hc removed cs2 bs2. subst cid uid removed cs2 bs2.
  unfold booking_of, class_of in *.
  unfold cancel_booking, bind, Bookings.find_one, Bookings.update_one,
    Classes.update_one_inc; simpl.
  rewrite Hb; simpl. rewrite Hb; simpl. rewrite Hm; simpl.
  rewrite find_booking_updated, Hb; simpl.
  assert (He : existsb (Classes.by_id (c_class_id request))
                 (class_collection db) = true).
  { apply existsb_find_some. congruence. }
  rewrite He; simpl.
  pose proof (removed_count (c_user_id request) bi) as Hr.
  pose proof (len_filter_pos _ _ Hm) as Hpos.
  unfold Bookings.apply_ops in Hr; simpl in Hr. rewrite Hr.
  destruct (- len (filter (Bookings.user_is (c_user_id request))
                     (get_list (bd_bookings bi))) =? 0) eqn:Hz.
  { apply Z.eqb_eq in Hz. lia. }
  simpl.
  destruct (get_list (bd_waitlist bi)) as [|h t]; simpl.
  - reflexivity.
  - rewrite find_booking_updated, Hb; simpl. reflexivity.
Qed.

(** What a successful cancellation leaves behind for the class. *)
Lemma cancel_booking_effect (request : CancelBookingRequest) (db : DB)
    (bi : BookingDoc) (c : ClassList) :
  let cid := c_class_id request in
  let uid := c_user_id request in
  booking_of db cid = Some bi ->
  existsb (Bookings.user_is uid) (get_list (bd_bookings bi)) = true ->
  class_of db cid = Some c ->
  let old := get_list (bd_bookings bi) in
  let wl := get_list (bd_waitlist bi) in
  let promoted := firstn 1 wl in
  let db' := snd (cancel_booking request db) in
  fst (cancel_booking request db)
  = Returned (match wl with
              | [] => "Booking canceled successfully"
              | _ :: _ => "Booking canceled, waitlist updated"
              end)
  /\ bookings_list db' cid
     = filter (fun r => negb (Bookings.user_is uid r)) old ++ promoted
  /\ waitlist_list db' cid
     = match wl with
       | [] => []
       | h :: t => filter (fun r => negb (Booking_eqb h r)) t
       end
  /\ exists c',
       class_of db' cid = Some c'
       /\ bookings c'
          = bookings c - len (filter (Bookings.user_is uid) old) + len promoted
       /\ waitlist c' = waitlist c - len promoted
       /\ total_slots c' = total_slots c.
Proof.
  intros cid uid Hb Hm Hc old wl promoted db'.
  subst db' promoted wl old.
  rewrite (cancel_booking_run request db bi c Hb Hm Hc).
  unfold booking_of, class_of in Hb, Hc.
  unfold bookings_list, waitlist_list, booking_of, class_of.
  subst cid uid.
  destruct bi as [bid bl wlo]; simpl in *.
  destruct (get_list wlo) as [|h t] eqn:Ew; simpl.
  - rewrite find_booking_updated, find_class_inc, Hb, Hc; simpl.
    unfold Bookings.apply_ops; simpl. rewrite get_list_pull, app_nil_r.
    repeat split.
    + destruct wlo as [[|? ?]|]; simpl in *; congruence.
    + eexists. split; [reflexivity |]. simpl. unfold len; simpl.
      repeat split; lia.
  - rewrite !find_booking_updated, !find_class_inc, Hb, Hc; simpl.
    unfold Bookings.apply_ops; simpl. rewrite get_list_pull.
    destruct wlo as [wl|]; simpl in Ew; [subst wl | discriminate].
    simpl. rewrite Booking_eqb_refl; simpl.
    repeat split.
    eexists. split; [reflexivity |]. simpl. unfold len; simpl.
    repeat split; lia.
Qed.

(** C4: with a booking document for the class, [cancel_booking] removes
    every confirmed reservation of the user, all of them and nothing else;
    when none matches it answers HTTP 404 "Booking not found" and leaves the
    store as it was.  When the class record exists, its bookings counter
    goes down by exactly the number of removed reservations; the promotion
    that follows on a non-empty waitlist then appends the waitlist head and
    adds one back. *)
Theorem cancel_booking_removes_all (request : CancelBookingRequest) (db : DB)
    (bi : BookingDoc) :
  let cid := c_class_id request in
  let uid := c_user_id request in
  booking_of db cid = Some bi ->
  let old := get_list (bd_bookings bi) in
  let matching := filter (Bookings.user_is uid) old in
  let db' := snd (cancel_booking request db) in
  (matching = [] ->
     cancel_booking request db
     = (Raised (mkHTTPException 404 "Booking not found"), db))
  /\ (matching <> [] ->
      let promoted :=
        match class_of db cid with
        | Some _ => firstn 1 (get_list (bd_waitlist bi))
        | None => []
        end in
      bookings_list db' cid
      = filter (fun r => negb (Bookings.user_is uid r)) old ++ promoted
      /\ forall c, class_of db cid = Some c ->
           exists c', class_of db' cid = Some c'
                      /\ bookings c' = bookings c - len matching + len promoted).
Proof.
  intros cid uid Hb old matching db'. split.
  - intros Hnone. apply (cancel_booking_unmatched request db bi Hb).
    destruct (existsb _ (get_list (bd_bookings bi))) eqn:E; [| reflexivity].
    apply len_filter_pos in E. fold uid old matching in E.
    rewrite Hnone in E. discriminate.
  - intros Hsome.
    assert (Hm : existsb (Bookings.user_is uid) old = true).
    { destruct (existsb _ old) eqn:E; [reflexivity |].
      apply filter_nil_existsb in E. contradiction. }
    destruct (class_of db cid) as [c|] eqn:Hc.
    + destruct (cancel_booking_effect request db bi c Hb Hm Hc)
        as (_ & Hbl & _ & c' & Hc' & Hcount & _).
      split; [exact Hbl |].
      intros c0 H0. injection H0 as <-. exists c'. now split.
    + split; [| discriminate]. subst db' old cid uid.
      rewrite (cancel_booking_no_class request db bi Hb Hm Hc).
      unfold bookings_list, booking_of; simpl.
      unfold booking_of in Hb. rewrite find_booking_updated, Hb; simpl.
      unfold Bookings.apply_ops; simpl.
      now rewrite get_list_pull, app_nil_r.
Qed.

Lemma cancel_booking_removes_all_witness :
  let db := run [RegisterClass yoga; BookSlot ann; BookSlot bob] empty_db in
  cancel_booking (mkCancel "c1" "u3") db
  = (Raised (mkHTTPException 404 "Booking not found"), db)
  /\ bookings_list (snd (cancel_booking (mkCancel "c1" "u1") db)) "c1"
     = [set_class_name bob "Yoga"].
Proof.
  pose (db := run [RegisterClass yoga; BookSlot ann; BookSlot bob] empty_db).
  destruct (cancel_booking_removes_all (mkCancel "c1" "u3") db
              (mkBookingDoc "c1" (Some [set_class_name ann "Yoga"])
                 (Some [set_class_name bob "Yoga"])) eq_refl) as [H3 _].
  destruct (cancel_booking_removes_all (mkCancel "c1" "u1") db
              (mkBookingDoc "c1" (Some [set_class_name ann "Yoga"])
                 (Some [set_class_name bob "Yoga"])) eq_refl) as [_ H1].
  split.
  - apply H3. reflexivity.
  - apply H1. discriminate.
Defined.

(** C10: when the user holds a confirmed reservation but no class record
    carries the [class_id], so that the decrement of the bookings counter
    modifies nothing, [cancel_booking] answers HTTP 500 "Failed to update
    class bookings"; the reservations are gone from the bookings array all
    the same, the waitlist is as it was (nothing is promoted), and so is
    the class collection. *)
Theorem cancel_booking_update_failed (request : CancelBookingRequest)
    (db : DB) (bi : BookingDoc) :
  let cid := c_class_id request in
  let uid := c_user_id request in
  booking_of db cid = Some bi ->
  existsb (Bookings.user_is uid) (get_list (bd_bookings bi)) = true ->
  class_of db cid = None ->
  let db' := snd (cancel_booking request db) in
  fst (cancel_booking request db)
  = Raised (mkHTTPException 500 "Failed to update class bookings")
  /\ bookings_list db' cid
     = filter (fun r => negb (Bookings.user_is uid r)) (bookings_list db cid)
  /\ len (bookings_list db' cid) < len (bookings_list db cid)
  /\ waitlist_list db' cid = waitlist_list db cid
  /\ class_collection db' = class_collection db
  /\ roadmaps_collection db' = roadmaps_collection db.
Proof.
  intros cid uid Hb Hm Hc db'. subst db' cid uid.
  rewrite (cancel_booking_no_class request db bi Hb Hm Hc).
  unfold bookings_list, waitlist_list. rewrite Hb.
  unfold booking_of in *; simpl.
  rewrite find_booking_updated, Hb; simpl.
  unfold Bookings.apply_ops; simpl. rewrite get_list_pull.
  repeat split.
  pose proof (len_filter_split (Bookings.user_is (c_user_id request))
                (get_list (bd_bookings bi))) as Hs.
  pose proof (len_filter_pos _ _ Hm) as Hp.
  unfold len in *. lia.
Qed.

Lemma cancel_booking_update_failed_witness :
  let db' := snd (cancel_booking (mkCancel "c1" "u1") orphan_db) in
  fst (cancel_booking (mkCancel "c1" "u1") orphan_db)
  = Raised (mkHTTPException 500 "Failed to update class bookings")
  /\ bookings_list db' "c1" = [bob]
  /\ waitlist_list db' "c1" = [cat].
Proof.
  destruct (cancel_booking_update_failed (mkCancel "c1" "u1") orphan_db
              (mkBookingDoc "c1" (Some [ann; bob]) (Some [cat]))
              eq_refl eq_refl eq_refl)
    as (Hout & Hbl & _ & Hwl & _).
  split; [exact Hout |]. split; [exact Hbl | exact Hwl].
Defined.

(** X10: when the head of the waitlist occurs nowhere else in it, a
    successful cancellation promotes exactly that entry: the rest of the waitlist stays
    in place and in order, and both counters move by one. *)
Lemma cancel_booking_promotes_head (request : CancelBookingRequest) (db : DB)
    (bi : BookingDoc) (c : ClassList) (h : Booking) (t : list Booking) :
  let cid := c_class_id request in
  let uid := c_user_id request in
  booking_of db cid = Some bi ->
  existsb (Bookings.user_is uid) (get_list (bd_bookings bi)) = true ->
  class_of db cid = Some c ->
  get_list (bd_waitlist bi) = h :: t ->
  existsb (Booking_eqb h) t = false ->
  let db' := snd (cancel_booking request db) in
  fst (cancel_booking request db)
  = Returned "Booking canceled, waitlist updated"
  /\ waitlist_list db' cid = t
  /\ bookings_list db' cid
     = filter (fun r => negb (Bookings.user_is uid r))
         (get_list (bd_bookings bi)) ++ [h]
  /\ exists c',
       class_of db' cid = Some c'
       /\ waitlist c' = waitlist c - 1
       /\ bookings c'
          = bookings c
            - len (filter (Bookings.user_is uid) (get_list (bd_bookings bi)))
            + 1.
Proof.
  intros cid uid Hb Hm Hc Hw Hone db'.
  destruct (cancel_booking_effect request db bi c Hb Hm Hc)
    as (Hout & Hbl & Hwl & c' & Hc' & Hbc & Hwc & _).
  fold cid uid db' in Hout, Hbl, Hwl, Hc', Hbc, Hwc.
  rewrite Hw in *. simpl in *. rewrite (filter_all _ _ Hone) in Hwl.
  repeat split; try assumption.
  exists c'. repeat split; assumption.
Qed.

(** Whoever cancels, the waitlist loses the entries equal to its head and
    no others; the head goes to the bookings array even when it is a
    reservation of the cancelling user. *)
Lemma cancel_booking_waitlist (request : CancelBookingRequest) (db : DB)
    (bi : BookingDoc) (c : ClassList) (h : Booking) (t : list Booking) :
  let cid := c_class_id request in
  let uid := c_user_id request in
  booking_of db cid = Some bi ->
  existsb (Bookings.user_is uid) (get_list (bd_bookings bi)) = true ->
  class_of db cid = Some c ->
  get_list (bd_waitlist bi) = h :: t ->
  let db' := snd (cancel_booking request db) in
  waitlist_list db' cid = filter (fun r => negb (Booking_eqb h r)) t
  /\ In h (bookings_list db' cid).
Proof.
  intros cid uid Hb Hm Hc Hw db'.
  destruct (cancel_booking_effect request db bi c Hb Hm Hc)
    as (_ & Hbl & Hwl & _).
  fold cid uid db' in Hbl, Hwl. rewrite Hw in *. simpl in *.
  split; [exact Hwl |]. rewrite Hbl. apply in_or_app. right. now left.
Qed.

(** C1, at the failing run: the class has one seat, Ann holds it, and Bob
    is waitlisted twice by the same request.  Counters and arrays agree
    until Ann cancels; the promotion of Bob then empties the waitlist while
    its counter only goes from 2 to 1. *)
Theorem repeated_waitlisting_breaks_sync :
  let before := run [BookSlot bob; BookSlot bob] seat_taken in
  let after := step (CancelBooking (mkCancel "c1" "u1")) before in
  in_sync before "c1"
  /\ option_map waitlist (class_of after "c1") = Some 1
  /\ waitlist_list after "c1" = []
  /\ ~ in_sync after "c1".
Proof.
  intros before after. split; [| split; [| split]].
  - intros c Hc. vm_compute in Hc. injection Hc as <-. now vm_compute.
  - reflexivity.
  - reflexivity.
  - intros H. destruct (H _ eq_refl) as [_ Hw]. vm_compute in Hw.
    discriminate.
Qed.

(** C3, at the failing run: the waitlist is Bob, Cat, Bob (Bob's request
    sent twice) when Ann cancels.  Bob is promoted once, but both of his
    entries leave the waitlist: Cat alone remains, where the tail Cat, Bob
    should, and the waitlist counter says 2. *)
Theorem promotion_drops_repeated_head :
  let before := run [BookSlot bob; BookSlot cat; BookSlot bob] seat_taken in
  let after := snd (cancel_booking (mkCancel "c1" "u1") before) in
  waitlist_list before "c1" = [stored bob; stored cat; stored bob]
  /\ fst (cancel_booking (mkCancel "c1" "u1") before)
     = Returned "Booking canceled, waitlist updated"
  /\ bookings_list after "c1" = [stored bob]
  /\ waitlist_list after "c1" = [stored cat]
  /\ waitlist_list after "c1" <> tl (waitlist_list before "c1")
  /\ option_map waitlist (class_of after "c1") = Some 2.
Proof.
  intros before after. repeat split. vm_compute. discriminate.
Qed.

(** C9, at the failing run: Ann holds the seat and is also waitlisted
    twice by the same request.  When she cancels, one of her waitlist
    entries is promoted into the seat and the other one is gone as well:
    the waitlist is empty. *)
Theorem cancel_drops_own_repeated_entry :
  let before := run [BookSlot ann; BookSlot ann] seat_taken in
  let after := snd (cancel_booking (mkCancel "c1" "u1") before) in
  bookings_list before "c1" = [stored ann]
  /\ waitlist_list before "c1" = [stored ann; stored ann]
  /\ bookings_list after "c1" = [stored ann]
  /\ waitlist_list after "c1" = []
  /\ List.length (bookings_list after "c1" ++ waitlist_list after "c1") = 1%nat.
Proof.
  intros before after. repeat split.
Qed.

(* ================================================================= *)
(** ** Counters and arrays along a run *)

Lemma class_frame (cid cid' : string) (a b : Z) (cs : list ClassList) :
  cid' <> cid ->
  find (Classes.by_id cid')
    (update_first (Classes.by_id cid) (Classes.inc a b) cs)
  = find (Classes.by_id cid') cs.
Proof.
  intros Hne. apply find_update_first_frame. intros x Hx.
  unfold Classes.by_id in *; simpl. apply String.eqb_eq in Hx.
  split; apply String.eqb_neq; congruence.
Qed.

Lemma booking_frame (cid cid' : string) (ops : list Bookings.update_op)
    (bs : list BookingDoc) :
  cid' <> cid ->
  find (Bookings.by_id cid')
    (update_first (Bookings.by_id cid) (Bookings.apply_ops ops) bs)
  = find (Bookings.by_id cid') bs.
Proof.
  intros Hne. apply find_update_first_frame. intros x Hx.
  unfold Bookings.by_id in *. rewrite apply_ops_class_id.
  apply String.eqb_eq in Hx.
  split; apply String.eqb_neq; congruence.
Qed.

Lemma save_roadmap_engine (e t : string) (n ed : list Json) (db : DB) :
  class_collection (snd (save_roadmap e t n ed db)) = class_collection db
  /\ booking_collection (snd (save_roadmap e t n ed db))
     = booking_collection db.
Proof.
  rewrite save_roadmap_run.
  destruct (forallb Roadmap_ok _); simpl; split; reflexivity.
Qed.

(** The run of [create_class] for a [class_id] that is free: the record
    is appended when the store can encode its integers, and otherwise the
    driver raises and nothing is written. *)
Lemma create_class_run (c : ClassList) (db : DB) :
  class_of db (class_id c) = None ->
  create_class c db =
  if ClassList_ok c
  then (Returned "Class created successfully",
        mkDB (roadmaps_collection db) (class_collection db ++ [c])
          (booking_collection db))
  else (Raised bson_overflow, db).
Proof.
  unfold class_of, create_class, bind, ret, Classes.find_one,
    Classes.insert_one; simpl.
  intros ->. now destruct (ClassList_ok c).
Qed.

Lemma book_slot_no_class (b : Booking) (db : DB) :
  class_of db (b_class_id b) = None ->
  book_slot b db = (Raised (mkHTTPException 404 "Class not found"), db).
Proof.
  unfold class_of, book_slot, bind, Classes.find_one; simpl.
  intros ->. reflexivity.
Qed.

(** The run of [book_slot] for a registered class. *)
Lemma book_slot_run (b : Booking) (db : DB) (c : ClassList) :
  let cid := b_class_id b in
  class_of db cid = Some c ->
  let r := set_class_name b (class_name c) in
  let full := total_slots c <=? bookings c in
  let op := if full then Bookings.PushWaitlist r else Bookings.PushBookings r in
  book_slot b db =
  (Returned (if full then "Added to waitlist" else "Booking confirmed"),
   mkDB (roadmaps_collection db)
     (update_first (Classes.by_id cid)
        (if full then Classes.inc 0 1 else Classes.inc 1 0)
        (class_collection db))
     (match booking_of db cid with
      | Some _ =>
          update_first (Bookings.by_id cid) (Bookings.apply_ops [op])
            (booking_collection db)
      | None =>
          booking_collection db
          ++ [Bookings.apply_ops [op] (mkBookingDoc cid None None)]
      end)).
Proof.
  intros cid Hc r full op. subst cid r full op.
  unfold class_of, booking_of in *.
  unfold book_slot, bind, ret, Classes.find_one, Classes.update_one_inc,
    Bookings.update_one; simpl.
  rewrite Hc; simpl.
  destruct (total_slots c <=? bookings c); simpl;
    destruct (find (Bookings.by_id (b_class_id b)) (booking_collection db));
    reflexivity.
Qed.

Lemma len_app_one {A} (l : list A) (x : A) : len (l ++ [x]) = len l + 1.
Proof. unfold len. rewrite length_app; simpl. lia. Qed.

Lemma create_class_inv (c : ClassList) (db : DB) :
  engine_inv db -> bookings c = 0 /\ waitlist c = 0 ->
  engine_inv (snd (create_class c db)).
Proof.
  intros Hinv [Hb0 Hw0].
  destruct (class_of db (class_id c)) as [c0|] eqn:Hc.
  - rewrite create_class_existing by congruence. exact Hinv.
  - rewrite (create_class_run c db Hc).
    destruct (ClassList_ok c); [| exact Hinv].
    intros cid. specialize (Hinv cid).
    unfold class_of, bookings_list, waitlist_list, booking_of in *; simpl.
    rewrite find_app_one.
    destruct (find (Classes.by_id cid) (class_collection db)); [exact Hinv |].
    destruct (Classes.by_id cid c); [| exact Hinv].
    rewrite Hinv, Hb0, Hw0. now split.
Qed.

Lemma book_slot_inv (b : Booking) (db : DB) :
  engine_inv db -> engine_inv (snd (book_slot b db)).
Proof.
  intros Hinv.
  destruct (class_of db (b_class_id b)) as [c|] eqn:Hc.
  2: { now rewrite (book_slot_no_class b db Hc). }
  rewrite (book_slot_run b db c Hc). intros cid.
  pose proof (Hinv cid) as Hcid.
  unfold class_of, bookings_list, waitlist_list, booking_of in *; simpl.
  destruct (String.eqb_spec cid (b_class_id b)) as [-> | Hne].
  - rewrite Hc in Hcid.
    destruct (total_slots c <=? bookings c);
      rewrite find_class_inc, Hc; simpl;
      destruct (find (Bookings.by_id (b_class_id b)) (booking_collection db))
        as [d|] eqn:Hb.
    all: try (rewrite find_booking_updated, Hb; simpl).
    all: try (rewrite find_app_one, Hb; unfold Bookings.by_id; simpl;
              rewrite String.eqb_refl; simpl).
    all: unfold Bookings.apply_ops, Bookings.push; simpl;
      rewrite ?len_app_one.
    all: destruct Hcid as [H1 H2]; unfold len in *;
      cbn [List.length] in *; split; lia.
  - assert (Hcf : forall a z,
               find (Classes.by_id cid)
                 (update_first (Classes.by_id (b_class_id b))
                    (Classes.inc a z) (class_collection db))
               = find (Classes.by_id cid) (class_collection db)).
    { intros a z. now apply class_frame. }
    assert (Hbf : forall op,
               find (Bookings.by_id cid)
                 (match find (Bookings.by_id (b_class_id b))
                          (booking_collection db) with
                  | Some _ =>
                      update_first (Bookings.by_id (b_class_id b))
                        (Bookings.apply_ops [op]) (booking_collection db)
                  | None =>
                      booking_collection db
                      ++ [Bookings.apply_ops [op]
                            (mkBookingDoc (b_class_id b) None None)]
                  end)
               = find (Bookings.by_id cid) (booking_collection db)).
    { intros op.
      destruct (find (Bookings.by_id (b_class_id b)) (booking_collection db)).
      - now apply booking_frame.
      - apply find_app_other. unfold Bookings.by_id.
        rewrite apply_ops_class_id; simpl. apply String.eqb_neq. congruence. }
    destruct (total_slots c <=? bookings c); rewrite Hcf, Hbf; exact Hcid.
Qed.

Lemma cancel_booking_inv (request : CancelBookingRequest) (db : DB) :
  engine_inv db ->
  head_unique (waitlist_list db (c_class_id request)) = true ->
  engine_inv (snd (cancel_booking request db)).
Proof.
  intros Hinv Hhead.
  destruct (booking_of db (c_class_id request)) as [bi|] eqn:Hb.
  2: { now rewrite (cancel_booking_no_record request db Hb). }
  destruct (existsb (Bookings.user_is (c_user_id request))
              (get_list (bd_bookings bi))) eqn:Hm.
  2: { now rewrite (cancel_booking_unmatched request db bi Hb Hm). }
  pose proof (Hinv (c_class_id request)) as Hcid.
  destruct (class_of db (c_class_id request)) as [c|] eqn:Hc;
    [| congruence].
  intros cid. destruct (String.eqb_spec cid (c_class_id request)) as [-> | Hne].
  - destruct (cancel_booking_effect request db bi c Hb Hm Hc)
      as (_ & Hbl & Hwl & c' & Hc' & Hbc & Hwc & _).
    rewrite Hc', Hbl, Hwl, Hbc, Hwc.
    unfold bookings_list, waitlist_list in Hcid, Hhead. rewrite Hb in *.
    destruct Hcid as [H1 H2].
    pose proof (len_filter_split (Bookings.user_is (c_user_id request))
                  (get_list (bd_bookings bi))) as Hs.
    destruct (get_list (bd_waitlist bi)) as [|h t]; simpl in Hhead |- *.
    + rewrite app_nil_r. unfold len in *; cbn [List.length] in *. split; lia.
    + apply negb_true_iff in Hhead. rewrite (filter_all _ _ Hhead).
      rewrite len_app_one. unfold len in *; cbn [List.length] in *.
      split; lia.
  - pose proof (Hinv cid) as Hother.
    rewrite (cancel_booking_run request db bi c Hb Hm Hc).
    unfold class_of, bookings_list, waitlist_list, booking_of in *.
    destruct (get_list (bd_waitlist bi)); simpl;
      rewrite ?class_frame, ?booking_frame by assumption; exact Hother.
Qed.

Lemma step_inv (op : Op) (db : DB) :
  engine_inv db -> admissible db op -> engine_inv (step op db).
Proof.
  intros Hinv Hadm. destruct op as [e t n ed | c | b | r]; simpl in *.
  - destruct (save_roadmap_engine e t n ed db) as [Hcs Hbs].
    intros cid. specialize (Hinv cid).
    unfold class_of, bookings_list, waitlist_list, booking_of in *.
    now rewrite Hcs, Hbs.
  - now apply create_class_inv.
  - now apply book_slot_inv.
  - now apply cancel_booking_inv.
Qed.

Lemma empty_db_inv : engine_inv empty_db.
Proof. intros cid. reflexivity. Qed.

Lemma run_inv (ops : list Op) (db : DB) :
  engine_inv db -> admissible_run db ops -> engine_inv (run ops db).
Proof.
  revert db. induction ops as [|op ops IH]; simpl; intros db Hinv Hadm.
  - exact Hinv.
  - destruct Hadm as [Hop Hrest]. apply IH; [| exact Hrest].
    now apply step_inv.
Qed.

Lemma admissible_run_prefix (n : nat) (ops : list Op) (db : DB) :
  admissible_run db ops -> admissible_run db (firstn n ops).
Proof.
  revert db ops. induction n as [|n IH]; intros db [|op ops]; simpl; auto.
  intros [Hop Hrest]. split; [exact Hop | now apply IH].
Qed.

(** X9: along a serial run from the empty store in which every registration
    leaves the counters at 0 and every cancellation meets a waitlist whose
    head is not repeated, the counters of every class equal the lengths of
    its arrays after each request. *)
Lemma counters_in_sync (ops : list Op) (n : nat) (cid : string) :
  admissible_run empty_db ops ->
  in_sync (run (firstn n ops) empty_db) cid.
Proof.
  intros Hadm c Hc.
  pose proof (run_inv (firstn n ops) empty_db empty_db_inv
                (admissible_run_prefix n ops empty_db Hadm) cid) as H.
  now rewrite Hc in H.
Qed.

(** The scenario of one seat and two users: the first books, the second is
    waitlisted, the first cancels and the second moves up. *)
Example one_seat_two_users :
  let db := run [BookSlot bob] seat_taken in
  let db' := snd (cancel_booking (mkCancel "c1" "u1") db) in
  fst (book_slot bob seat_taken) = Returned "Added to waitlist"
  /\ admissible_run empty_db
       [RegisterClass yoga; BookSlot ann; BookSlot bob;
        CancelBooking (mkCancel "c1" "u1")]
  /\ fst (cancel_booking (mkCancel "c1" "u1") db)
     = Returned "Booking canceled, waitlist updated"
  /\ bookings_list db' "c1" = [stored bob]
  /\ waitlist_list db' "c1" = []
  /\ option_map bookings (class_of db' "c1") = Some 1
  /\ option_map waitlist (class_of db' "c1") = Some 0.
Proof. vm_compute. repeat split. Qed.

(* ================================================================= *)
(** * Further properties *)

(* ================================================================= *)
(** ** Registering and booking *)

(** X1: with a free seat ([bookings < total_slots]), [book_slot] appends
    the reservation, carrying the class name of the class record, to the
    bookings array (in a new booking document when the class has none),
    adds one to the bookings counter, leaves the waitlist array, the
    waitlist counter and the registered data of the class as they are, and
    answers "Booking confirmed". *)
Theorem book_slot_free_seat (booking : Booking) (db : DB) (c : ClassList) :
  class_of db (b_class_id booking) = Some c ->
  bookings c < total_slots c ->
  let cid := b_class_id booking in
  let r := set_class_name booking (class_name c) in
  let db' := snd (book_slot booking db) in
  fst (book_slot booking db) = Returned "Booking confirmed"
  /\ bookings_list db' cid = bookings_list db cid ++ [r]
  /\ waitlist_list db' cid = waitlist_list db cid
  /\ (booking_of db cid = None ->
      booking_of db' cid = Some (mkBookingDoc cid (Some [r]) None))
  /\ (exists c', class_of db' cid = Some c'
                 /\ bookings c' = bookings c + 1
                 /\ waitlist c' = waitlist c
                 /\ static c' = static c)
  /\ roadmaps_collection db' = roadmaps_collection db.
Proof.
  intros Hc Hfree cid r db'. subst cid r db'.
  rewrite (book_slot_run booking db c Hc).
  apply Z.leb_gt in Hfree. rewrite Hfree.
  unfold bookings_list, waitlist_list, booking_of, class_of in *.
  cbn [roadmaps_collection class_collection booking_collection fst snd].
  rewrite find_class_inc, Hc; simpl.
  destruct (find (Bookings.by_id (b_class_id booking)) (booking_collection db))
    as [d|] eqn:E.
  - rewrite find_booking_updated, E; simpl.
    unfold Bookings.apply_ops; simpl.
    repeat split; [discriminate |].
    eexists. split; [reflexivity |]. simpl. repeat split; lia.
  - rewrite find_app_one, E. unfold Bookings.by_id; simpl.
    rewrite String.eqb_refl; simpl.
    repeat split.
    eexists. split; [reflexivity |]. simpl. repeat split; lia.
Qed.

Lemma book_slot_free_seat_witness :
  let db' := snd (book_slot ann (snd (create_class yoga empty_db))) in
  fst (book_slot ann (snd (create_class yoga empty_db)))
  = Returned "Booking confirmed"
  /\ bookings_list db' "c1" = [stored ann]
  /\ booking_of db' "c1" = Some (mkBookingDoc "c1" (Some [stored ann]) None).
Proof.
  destruct (book_slot_free_seat ann (snd (create_class yoga empty_db)) yoga
              eq_refl)
    as (Hout & Hbl & _ & Hdoc & _).
  - simpl. lia.
  - split; [exact Hout |]. split; [exact Hbl |]. apply Hdoc. reflexivity.
Defined.


(** X3: the answers of [cancel_booking], case by case.  Without a booking
    document for the class, even when the class is registered, it is HTTP
    404 "Class not found"; without a confirmed reservation of the user,
    404 "Booking not found"; in both cases nothing is written.  With one,
    it is 500 "Failed to update class bookings" when no class record
    exists, and otherwise a message that tells whether the waitlist read at
    the start had an entry to promote. *)
Theorem cancel_booking_outcome (request : CancelBookingRequest) (db : DB) :
  match booking_of db (c_class_id request) with
  | None =>
      cancel_booking request db
      = (Raised (mkHTTPException 404 "Class not found"), db)
  | Some bi =>
      if existsb (Bookings.user_is (c_user_id request))
           (get_list (bd_bookings bi))
      then
        fst (cancel_booking request db)
        = match class_of db (c_class_id request) with
          | None =>
              Raised (mkHTTPException 500 "Failed to update class bookings")
          | Some _ =>
              Returned (match get_list (bd_waitlist bi) with
                        | [] => "Booking canceled successfully"
                        | _ :: _ => "Booking canceled, waitlist updated"
                        end)
          end
      else
        cancel_booking request db
        = (Raised (mkHTTPException 404 "Booking not found"), db)
  end.
Proof.
  destruct (booking_of db (c_class_id request)) as [bi|] eqn:Hb.
  2: { now apply cancel_booking_no_record. }
  destruct (existsb _ (get_list (bd_bookings bi))) eqn:Hm.
  2: { now apply (cancel_booking_unmatched request db bi). }
  destruct (class_of db (c_class_id request)) as [c|] eqn:Hc.
  - rewrite (cancel_booking_run request db bi c Hb Hm Hc).
    now destruct (get_list (bd_waitlist bi)).
  - now rewrite (cancel_booking_no_class request db bi Hb Hm Hc).
Qed.

(** X4: registering a [class_id] that no class record carries.  When the
    three integers of the record fit the store's 8 bytes, the answer is
    "Class created successfully" and the record is stored as it was sent,
    the two counters included: a lookup by the [class_id] yields it, the
    class list shows it last, after the classes listed before, the lookup
    of any other [class_id] is as before, and no booking document is
    created.  When one of them does not fit, the driver's [OverflowError]
    leaves the handler (an HTTP 500 for the client) and nothing is
    written. *)
Theorem create_class_fresh (str : HTTPException -> string)
    (class_data : ClassList) (db : DB) :
  class_of db (class_id class_data) = None ->
  let db' := snd (create_class class_data db) in
  if ClassList_ok class_data then
    fst (create_class class_data db) = Returned "Class created successfully"
    /\ class_of db' (class_id class_data) = Some class_data
    /\ fst (fetch_class_list str db')
       = Returned (class_collection db ++ [class_data])
    /\ (forall cid, cid <> class_id class_data ->
          class_of db' cid = class_of db cid)
    /\ booking_collection db' = booking_collection db
    /\ roadmaps_collection db' = roadmaps_collection db
  else
    (exists message,
       fst (create_class class_data db) = Raised (OverflowError message))
    /\ db' = db.
Proof.
  intros Hc db'. subst db'. rewrite (create_class_run class_data db Hc).
  destruct (ClassList_ok class_data).
  - unfold class_of in *; simpl. rewrite find_app_one, Hc.
    unfold Classes.by_id at 1. rewrite String.eqb_refl.
    repeat split. intros cid Hne. apply find_app_other.
    apply String.eqb_neq. congruence.
  - split; [| reflexivity]. eexists. reflexivity.
Qed.

Lemma create_class_fresh_witness :
  class_of (snd (create_class yoga empty_db)) "c1" = Some yoga
  /\ fst (fetch_class_list (fun _ => "e") (snd (create_class yoga empty_db)))
     = Returned [yoga].
Proof.
  destruct (create_class_fresh (fun _ => "e") yoga empty_db eq_refl)
    as (_ & Hfind & Hlist & _).
  split; [exact Hfind | exact Hlist].
Defined.

(** A class with a capacity of 2^63 seats is refused by the store. *)
Example create_class_refused :
  let huge := mkClassList "Hall" "c9" "All" "door" "red"
                9223372036854775808 0 0 in
  create_class huge empty_db = (Raised bson_overflow, empty_db).
Proof. reflexivity. Qed.

(* ================================================================= *)
(** ** One class at a time *)

Lemma book_slot_frame (b : Booking) (db : DB) (cid : string) :
  cid <> b_class_id b ->
  class_of (snd (book_slot b db)) cid = class_of db cid
  /\ booking_of (snd (book_slot b db)) cid = booking_of db cid.
Proof.
  intros Hne.
  destruct (class_of db (b_class_id b)) as [c|] eqn:Hc.
  2: { now rewrite (book_slot_no_class b db Hc). }
  rewrite (book_slot_run b db c Hc).
  unfold class_of, booking_of in *.
  cbn [class_collection booking_collection snd]. split.
  - destruct (total_slots c <=? bookings c); now apply class_frame.
  - destruct (find (Bookings.by_id (b_class_id b)) (booking_collection db)).
    + now apply booking_frame.
    + apply find_app_other. unfold Bookings.by_id.
      rewrite apply_ops_class_id; simpl. apply String.eqb_neq. congruence.
Qed.

Lemma cancel_booking_frame (r : CancelBookingRequest) (db : DB)
    (cid : string) :
  cid <> c_class_id r ->
  class_of (snd (cancel_booking r db)) cid = class_of db cid
  /\ booking_of (snd (cancel_booking r db)) cid = booking_of db cid.
Proof.
  intros Hne.
  destruct (booking_of db (c_class_id r)) as [bi|] eqn:Hb.
  2: { now rewrite (cancel_booking_no_record r db Hb). }
  destruct (existsb (Bookings.user_is (c_user_id r))
              (get_list (bd_bookings bi))) eqn:Hm.
  2: { now rewrite (cancel_booking_unmatched r db bi Hb Hm). }
  destruct (class_of db (c_class_id r)) as [c|] eqn:Hc.
  - rewrite (cancel_booking_run r db bi c Hb Hm Hc).
    unfold class_of, booking_of.
    destruct (get_list (bd_waitlist bi));
      cbn [class_collection booking_collection snd];
      rewrite ?class_frame, ?booking_frame by assumption; now split.
  - rewrite (cancel_booking_no_class r db bi Hb Hm Hc).
    unfold class_of, booking_of.
    cbn [class_collection booking_collection snd].
    rewrite booking_frame by assumption. now split.
Qed.

(** X5: a booking or a cancellation for one class leaves every other class
    alone: for any other [class_id], the class record and the booking
    document found before the request are the ones found after it,
    whatever the request's outcome. *)
Theorem other_classes_untouched (db : DB) (cid : string) :
  (forall b, b_class_id b <> cid ->
     class_of (snd (book_slot b db)) cid = class_of db cid
     /\ bookings_list (snd (book_slot b db)) cid = bookings_list db cid
     /\ waitlist_list (snd (book_slot b db)) cid = waitlist_list db cid)
  /\ (forall r, c_class_id r <> cid ->
        class_of (snd (cancel_booking r db)) cid = class_of db cid
        /\ bookings_list (snd (cancel_booking r db)) cid = bookings_list db cid
        /\ waitlist_list (snd (cancel_booking r db)) cid
           = waitlist_list db cid).
Proof.
  split.
  - intros b Hne.
    destruct (book_slot_frame b db cid) as [Hc Hb]; [congruence |].
    unfold bookings_list, waitlist_list. now rewrite Hc, Hb.
  - intros r Hne.
    destruct (cancel_booking_frame r db cid) as [Hc Hb]; [congruence |].
    unfold bookings_list, waitlist_list. now rewrite Hc, Hb.
Qed.

Lemma other_classes_untouched_witness :
  let pilates := mkClassList "Pilates" "c2" "Evening" "mat" "blue" 5 0 0 in
  let db := run [RegisterClass pilates; BookSlot bob] seat_taken in
  class_of (snd (book_slot cat db)) "c2" = Some pilates
  /\ bookings_list (snd (cancel_booking (mkCancel "c1" "u1") db)) "c2" = [].
Proof.
  intros pilates db.
  destruct (other_classes_untouched db "c2") as [Hbook Hcancel].
  split.
  - destruct (Hbook cat) as [H _]; [discriminate | exact H].
  - destruct (Hcancel (mkCancel "c1" "u1")) as (_ & H & _);
      [discriminate | exact H].
Defined.

(** The seats of the class a booking is for. *)
Lemma book_slot_effect (b : Booking) (db : DB) (c : ClassList) :
  let cid := b_class_id b in
  class_of db cid = Some c ->
  let r := set_class_name b (class_name c) in
  let full := total_slots c <=? bookings c in
  let db' := snd (book_slot b db) in
  class_of db' cid
  = Some (if full then Classes.inc 0 1 c else Classes.inc 1 0 c)
  /\ bookings_list db' cid
     = (if full then bookings_list db cid else bookings_list db cid ++ [r])
  /\ waitlist_list db' cid
     = (if full then waitlist_list db cid ++ [r] else waitlist_list db cid).
Proof.
  intros cid Hc r full db'. subst cid r full db'.
  rewrite (book_slot_run b db c Hc).
  unfold bookings_list, waitlist_list, booking_of, class_of in *.
  cbn [class_collection booking_collection snd].
  destruct (total_slots c <=? bookings c);
    rewrite find_class_inc, Hc;
    destruct (find (Bookings.by_id (b_class_id b)) (booking_collection db))
      as [d|] eqn:Hb.
  all: try (rewrite find_booking_updated, Hb).
  all: try (rewrite find_app_one, Hb; unfold Bookings.by_id;
            rewrite apply_ops_class_id; simpl; rewrite String.eqb_refl).
  all: repeat split.
Qed.

(* ================================================================= *)
(** ** Seats along a run *)

Lemma len_filter_le {A} (p : A -> bool) (l : list A) :
  len (filter (fun x => negb (p x)) l) <= len l.
Proof.
  pose proof (len_filter_split p l) as Hs.
  assert (0 <= len (filter p l)) by (unfold len; lia). lia.
Qed.

Lemma create_class_seats (c : ClassList) (db : DB) :
  seats_inv db -> bookings c = 0 /\ waitlist c = 0 ->
  seats_inv (snd (create_class c db)).
Proof.
  intros Hinv [Hb0 Hw0].
  destruct (class_of db (class_id c)) as [c0|] eqn:Hc.
  - rewrite create_class_existing by congruence. exact Hinv.
  - rewrite (create_class_run c db Hc).
    destruct (ClassList_ok c); [| exact Hinv].
    intros cid. specialize (Hinv cid).
    unfold class_of, bookings_list, waitlist_list, booking_of in *; simpl.
    rewrite find_app_one.
    destruct (find (Classes.by_id cid) (class_collection db)); [exact Hinv |].
    destruct (Classes.by_id cid c); [| exact Hinv].
    rewrite Hinv, Hb0, Hw0. unfold len; simpl. lia.
Qed.

Lemma book_slot_seats (b : Booking) (db : DB) :
  seats_inv db -> seats_inv (snd (book_slot b db)).
Proof.
  intros Hinv cid.
  destruct (String.eqb_spec cid (b_class_id b)) as [-> | Hne].
  - pose proof (Hinv (b_class_id b)) as Hcid.
    destruct (class_of db (b_class_id b)) as [c|] eqn:Hc.
    + destruct (book_slot_effect b db c Hc) as (Hc' & Hbl & Hwl).
      rewrite Hc', Hbl, Hwl.
      destruct (total_slots c <=? bookings c) eqn:Hfull; simpl;
        rewrite len_app_one;
        [apply Z.leb_le in Hfull | apply Z.leb_gt in Hfull]; lia.
    + rewrite (book_slot_no_class b db Hc); simpl. rewrite Hc. exact Hcid.
  - destruct (book_slot_frame b db cid Hne) as [Hc Hb].
    unfold bookings_list, waitlist_list. rewrite Hc, Hb. exact (Hinv cid).
Qed.

Lemma cancel_booking_seats (r : CancelBookingRequest) (db : DB) :
  seats_inv db -> seats_inv (snd (cancel_booking r db)).
Proof.
  intros Hinv cid.
  destruct (String.eqb_spec cid (c_class_id r)) as [-> | Hne].
  2: { destruct (cancel_booking_frame r db cid Hne) as [Hc Hb].
       unfold bookings_list, waitlist_list. rewrite Hc, Hb.
       exact (Hinv cid). }
  pose proof (Hinv (c_class_id r)) as Hcid.
  destruct (booking_of db (c_class_id r)) as [bi|] eqn:Hb.
  2: { rewrite (cancel_booking_no_record r db Hb); simpl. exact (Hinv _). }
  destruct (existsb (Bookings.user_is (c_user_id r))
              (get_list (bd_bookings bi))) eqn:Hm.
  2: { rewrite (cancel_booking_unmatched r db bi Hb Hm); simpl.
       exact (Hinv _). }
  destruct (class_of db (c_class_id r)) as [c|] eqn:Hc; [| congruence].
  destruct (cancel_booking_effect r db bi c Hb Hm Hc)
    as (_ & Hbl & Hwl & c' & Hc' & Hbc & Hwc & Hts).
  rewrite Hc', Hbl, Hwl, Hbc, Hwc, Hts.
  unfold bookings_list, waitlist_list in Hcid. rewrite Hb in Hcid.
  destruct Hcid as (H1 & H2 & H3).
  pose proof (len_filter_split (Bookings.user_is (c_user_id r))
                (get_list (bd_bookings bi))) as Hs.
  pose proof (len_filter_pos _ _ Hm) as Hp.
  destruct (get_list (bd_waitlist bi)) as [|h t]; simpl.
  - rewrite app_nil_r. unfold len in *; cbn [List.length] in *. lia.
  - pose proof (len_filter_le (Booking_eqb h) t) as Hle.
    rewrite len_app_one. unfold len in *; cbn [List.length] in *. lia.
Qed.

Lemma step_seats (op : Op) (db : DB) :
  seats_inv db -> fresh_registration op -> seats_inv (step op db).
Proof.
  intros Hinv Hfresh. destruct op as [e t n ed | c | b | r]; simpl in *.
  - destruct (save_roadmap_engine e t n ed db) as [Hcs Hbs].
    intros cid. specialize (Hinv cid).
    unfold class_of, bookings_list, waitlist_list, booking_of in *.
    now rewrite Hcs, Hbs.
  - now apply create_class_seats.
  - now apply book_slot_seats.
  - now apply cancel_booking_seats.
Qed.

Lemma run_seats (ops : list Op) (db : DB) :
  seats_inv db -> Forall fresh_registration ops -> seats_inv (run ops db).
Proof.
  revert db. induction ops as [|op ops IH]; simpl; intros db Hinv Hfresh.
  - exact Hinv.
  - inversion Hfresh as [|? ? Hop Hrest]; subst.
    apply IH; [| exact Hrest]. now apply step_seats.
Qed.

(** X6: along every serial run from the empty store whose registrations
    leave the counters at 0, whatever is booked or cancelled and however
    often a request is repeated: the bookings counter of a class is the
    number of its confirmed reservations and never exceeds its capacity,
    and the waitlist counter is never below the number of its waitlist
    entries. *)
Theorem seats_never_oversold (ops : list Op) (cid : string) (c : ClassList) :
  Forall fresh_registration ops ->
  class_of (run ops empty_db) cid = Some c ->
  bookings c = len (bookings_list (run ops empty_db) cid)
  /\ 0 <= bookings c <= Z.max (total_slots c) 0
  /\ len (waitlist_list (run ops empty_db) cid) <= waitlist c.
Proof.
  intros Hfresh Hc.
  assert (Hinv : seats_inv (run ops empty_db)).
  { apply run_seats; [| exact Hfresh]. intros x. reflexivity. }
  specialize (Hinv cid). rewrite Hc in Hinv.
  destruct Hinv as (H1 & H2 & H3). repeat split; try assumption.
  rewrite H1. unfold len. lia.
Qed.

Lemma seats_never_oversold_witness :
  let ops := [RegisterClass yoga; BookSlot ann; BookSlot bob; BookSlot bob;
              CancelBooking (mkCancel "c1" "u1")] in
  bookings_list (run ops empty_db) "c1" = [stored bob]
  /\ len (waitlist_list (run ops empty_db) "c1") <= 1.
Proof.
  intros ops.
  destruct (seats_never_oversold ops "c1"
              (mkClassList "Yoga" "c1" "Morning yoga" "lotus" "green" 1 1 1))
    as (_ & _ & Hw).
  - repeat constructor.
  - reflexivity.
  - split; [reflexivity | exact Hw].
Defined.

(* ================================================================= *)
(** ** Class records over time *)

Lemma step_class_persists (op : Op) (db : DB) (cid : string) (c : ClassList) :
  class_of db cid = Some c ->
  exists c', class_of (step op db) cid = Some c' /\ static c' = static c.
Proof.
  intros Hc. destruct op as [e t n ed | c0 | b | r]; simpl.
  - destruct (save_roadmap_engine e t n ed db) as [Hcs _].
    exists c. unfold class_of in *. now rewrite Hcs.
  - destruct (class_of db (class_id c0)) as [c1|] eqn:H0.
    + rewrite create_class_existing by congruence. now exists c.
    + rewrite (create_class_run c0 db H0).
      destruct (ClassList_ok c0); [| now exists c]. exists c.
      unfold class_of in *; simpl. now rewrite find_app_one, Hc.
  - destruct (String.eqb_spec cid (b_class_id b)) as [-> | Hne].
    + destruct (book_slot_effect b db c Hc) as (Hc' & _).
      rewrite Hc'. eexists. split; [reflexivity |].
      now destruct (total_slots c <=? bookings c).
    + destruct (book_slot_frame b db cid Hne) as [Hc' _].
      exists c. now rewrite Hc'.
  - destruct (String.eqb_spec cid (c_class_id r)) as [-> | Hne].
    2: { destruct (cancel_booking_frame r db cid Hne) as [Hc' _].
         exists c. now rewrite Hc'. }
    destruct (booking_of db (c_class_id r)) as [bi|] eqn:Hb.
    2: { rewrite (cancel_booking_no_record r db Hb). now exists c. }
    destruct (existsb (Bookings.user_is (c_user_id r))
                (get_list (bd_bookings bi))) eqn:Hm.
    2: { rewrite (cancel_booking_unmatched r db bi Hb Hm). now exists c. }
    rewrite (cancel_booking_run r db bi c Hb Hm Hc).
    unfold class_of in *.
    destruct (get_list (bd_waitlist bi));
      cbn [class_collection snd]; rewrite !find_class_inc, Hc; simpl;
      eexists; (split; [reflexivity | reflexivity]).
Qed.

(** X7: a registered class stays registered, and what it was registered
    with stays as it is: after any further serial requests, from any
    store, the lookup by its [class_id] still yields a record with the
    same name, description, icon, color and capacity; only the two
    counters move. *)
Theorem class_record_persists (ops : list Op) (db : DB) (cid : string)
    (c : ClassList) :
  class_of db cid = Some c ->
  exists c', class_of (run ops db) cid = Some c' /\ static c' = static c.
Proof.
  revert db c. induction ops as [|op ops IH]; simpl; intros db c Hc.
  - now exists c.
  - destruct (step_class_persists op db cid c Hc) as (c1 & Hc1 & Hs1).
    destruct (IH (step op db) c1 Hc1) as (c' & Hc' & Hs').
    exists c'. split; [exact Hc' | congruence].
Qed.

Lemma class_record_persists_witness :
  exists c',
    class_of (run [BookSlot bob; CancelBooking (mkCancel "c1" "u1");
                   RegisterClass yoga] seat_taken) "c1" = Some c'
    /\ static c' = static yoga.
Proof.
  destruct (class_record_persists
              [BookSlot bob; CancelBooking (mkCancel "c1" "u1");
               RegisterClass yoga] seat_taken "c1"
              (mkClassList "Yoga" "c1" "Morning yoga" "lotus" "green" 1 1 0)
              eq_refl) as (c' & Hc' & Hs).
  exists c'. split; [exact Hc' | exact Hs].
Defined.

Lemma class_id_absent (cid : string) (cs : list ClassList) :
  find (Classes.by_id cid) cs = None -> ~ In cid (map class_id cs).
Proof.
  induction cs as [|c cs IH]; simpl; intros H.
  - intros [].
  - unfold Classes.by_id at 1 in H.
    destruct (String.eqb (class_id c) cid) eqn:E; [discriminate |].
    apply String.eqb_neq in E. intros [Hc | Hin]; [contradiction |].
    now apply IH.
Qed.

Lemma booking_id_absent (cid : string) (bs : list BookingDoc) :
  find (Bookings.by_id cid) bs = None -> ~ In cid (map bd_class_id bs).
Proof.
  induction bs as [|d bs IH]; simpl; intros H.
  - intros [].
  - unfold Bookings.by_id at 1 in H.
    destruct (String.eqb (bd_class_id d) cid) eqn:E; [discriminate |].
    apply String.eqb_neq in E. intros [Hd | Hin]; [contradiction |].
    now apply IH.
Qed.

Lemma NoDup_snoc {A} (l : list A) (x : A) :
  NoDup l -> ~ In x l -> NoDup (l ++ [x]).
Proof.
  intros Hl Hx. apply NoDup_app; [exact Hl | | ].
  - constructor; [intros [] | constructor].
  - intros a Ha [<- | []]. contradiction.
Qed.

Lemma class_ids_inc (cid : string) (a b : Z) (cs : list ClassList) :
  map class_id (update_first (Classes.by_id cid) (Classes.inc a b) cs)
  = map class_id cs.
Proof. now apply map_update_first. Qed.

Lemma booking_ids_updated (cid : string) (ops : list Bookings.update_op)
    (bs : list BookingDoc) :
  map bd_class_id
    (update_first (Bookings.by_id cid) (Bookings.apply_ops ops) bs)
  = map bd_class_id bs.
Proof. apply map_update_first. intros x. apply apply_ops_class_id. Qed.

Lemma step_ids_unique (op : Op) (db : DB) :
  ids_unique db -> ids_unique (step op db).
Proof.
  intros [Hcs Hbs]. unfold ids_unique.
  destruct op as [e t n ed | c0 | b | r]; simpl.
  - destruct (save_roadmap_engine e t n ed db) as [-> ->]. now split.
  - destruct (class_of db (class_id c0)) as [c1|] eqn:H0.
    + rewrite create_class_existing by congruence. now split.
    + rewrite (create_class_run c0 db H0).
      destruct (ClassList_ok c0); simpl; [| now split].
      split; [| exact Hbs].
      rewrite map_app; simpl. apply NoDup_snoc; [exact Hcs |].
      now apply class_id_absent.
  - destruct (class_of db (b_class_id b)) as [c|] eqn:Hc.
    2: { rewrite (book_slot_no_class b db Hc). now split. }
    rewrite (book_slot_run b db c Hc).
    cbn [class_collection booking_collection snd]. split.
    + destruct (total_slots c <=? bookings c); now rewrite class_ids_inc.
    + destruct (booking_of db (b_class_id b)) eqn:Hb.
      * now rewrite booking_ids_updated.
      * rewrite map_app. cbn [map]. rewrite apply_ops_class_id.
        cbn [bd_class_id].
        apply NoDup_snoc; [exact Hbs |]. now apply booking_id_absent.
  - destruct (booking_of db (c_class_id r)) as [bi|] eqn:Hb.
    2: { rewrite (cancel_booking_no_record r db Hb). now split. }
    destruct (existsb (Bookings.user_is (c_user_id r))
                (get_list (bd_bookings bi))) eqn:Hm.
    2: { rewrite (cancel_booking_unmatched r db bi Hb Hm). now split. }
    destruct (class_of db (c_class_id r)) as [c|] eqn:Hc.
    + rewrite (cancel_booking_run r db bi c Hb Hm Hc).
      destruct (get_list (bd_waitlist bi));
        cbn [class_collection booking_collection snd];
        rewrite !class_ids_inc, !booking_ids_updated; now split.
    + rewrite (cancel_booking_no_class r db bi Hb Hm Hc).
      cbn [class_collection booking_collection snd].
      rewrite booking_ids_updated. now split.
Qed.

Lemma run_ids_unique (ops : list Op) (db : DB) :
  ids_unique db -> ids_unique (run ops db).
Proof.
  revert db. induction ops as [|op ops IH]; simpl; intros db H.
  - exact H.
  - apply IH. now apply step_ids_unique.
Qed.

(** X8: in every store reached by serial requests from the empty store,
    the class list shows each [class_id] once, and each class has at most
    one booking document: the document that a lookup by [class_id] finds
    first is the only one. *)
Theorem class_ids_stay_unique (str : HTTPException -> string)
    (ops : list Op) :
  let db := run ops empty_db in
  fst (fetch_class_list str db) = Returned (class_collection db)
  /\ NoDup (map class_id (class_collection db))
  /\ NoDup (map bd_class_id (booking_collection db)).
Proof.
  intros db. split; [reflexivity |].
  apply run_ids_unique. split; constructor.
Qed.

(* ================================================================= *)
(** ** Runs that keep the counters, and the first in line *)

Lemma counters_in_sync_witness :
  in_sync
    (run (firstn 4 [RegisterClass yoga; BookSlot ann; BookSlot bob;
                    CancelBooking (mkCancel "c1" "u1")]) empty_db) "c1".
Proof.
  apply (counters_in_sync
           [RegisterClass yoga; BookSlot ann; BookSlot bob;
            CancelBooking (mkCancel "c1" "u1")] 4 "c1").
  vm_compute. repeat split.
Defined.

Lemma cancel_booking_promotes_head_witness :
  let db := run [BookSlot bob; BookSlot cat] seat_taken in
  let db' := snd (cancel_booking (mkCancel "c1" "u1") db) in
  waitlist_list db' "c1" = [stored cat]
  /\ bookings_list db' "c1" = [stored bob].
Proof.
  destruct (cancel_booking_promotes_head (mkCancel "c1" "u1")
              (run [BookSlot bob; BookSlot cat] seat_taken)
              (mkBookingDoc "c1" (Some [stored ann])
                 (Some [stored bob; stored cat]))
              (mkClassList "Yoga" "c1" "Morning yoga" "lotus" "green" 1 1 2)
              (stored bob) [stored cat]
              eq_refl eq_refl eq_refl eq_refl eq_refl)
    as (_ & Hwl & Hbl & _).
  split; [exact Hwl | exact Hbl].
Defined.

(* ================================================================= *)
(** ** Requests in sequence *)

Lemma existsb_filter_neg {A} (p : A -> bool) (l : list A) :
  existsb p (filter (fun x => negb (p x)) l) = false.
Proof.
  induction l as [|y l IH]; simpl.
  - reflexivity.
  - destruct (p y) eqn:E; simpl; [exact IH | now rewrite E].
Qed.

(** A cancellation never deletes the booking document of its class. *)
Lemma cancel_booking_document (r : CancelBookingRequest) (db : DB)
    (bi : BookingDoc) :
  booking_of db (c_class_id r) = Some bi ->
  exists bi',
    booking_of (snd (cancel_booking r db)) (c_class_id r) = Some bi'.
Proof.
  intros Hb.
  destruct (existsb (Bookings.user_is (c_user_id r))
              (get_list (bd_bookings bi))) eqn:Hm.
  2: { rewrite (cancel_booking_unmatched r db bi Hb Hm). now exists bi. }
  destruct (class_of db (c_class_id r)) as [c|] eqn:Hc.
  - rewrite (cancel_booking_run r db bi c Hb Hm Hc).
    unfold booking_of in *.
    destruct (get_list (bd_waitlist bi));
      cbn [booking_collection snd]; rewrite !find_booking_updated, Hb;
      simpl; eexists; reflexivity.
  - rewrite (cancel_booking_no_class r db bi Hb Hm Hc).
    unfold booking_of in *. cbn [booking_collection snd].
    rewrite find_booking_updated, Hb. simpl. eexists; reflexivity.
Qed.

(** X11: a cancellation that succeeded cannot be repeated: unless the
    entry it promoted from the head of the waitlist is a reservation of the
    same user, the same request sent again is answered with HTTP 404
    "Booking not found" and writes nothing. *)
Theorem cancel_booking_again (request : CancelBookingRequest) (db : DB)
    (bi : BookingDoc) (c : ClassList) :
  let cid := c_class_id request in
  let uid := c_user_id request in
  booking_of db cid = Some bi ->
  existsb (Bookings.user_is uid) (get_list (bd_bookings bi)) = true ->
  class_of db cid = Some c ->
  existsb (Bookings.user_is uid) (firstn 1 (get_list (bd_waitlist bi)))
    = false ->
  let db1 := snd (cancel_booking request db) in
  cancel_booking request db1
  = (Raised (mkHTTPException 404 "Booking not found"), db1).
Proof.
  intros cid uid Hb Hm Hc Hhead db1.
  destruct (cancel_booking_document request db bi Hb) as (bi1 & Hb1).
  destruct (cancel_booking_effect request db bi c Hb Hm Hc)
    as (_ & Hbl & _).
  fold cid uid db1 in Hb1, Hbl. unfold bookings_list in Hbl.
  rewrite Hb1 in Hbl.
  apply (cancel_booking_unmatched request db1 bi1 Hb1).
  fold uid. rewrite Hbl, existsb_app, existsb_filter_neg. exact Hhead.
Qed.

Lemma cancel_booking_again_witness :
  let db1 := snd (cancel_booking (mkCancel "c1" "u1")
                    (run [BookSlot bob] seat_taken)) in
  cancel_booking (mkCancel "c1" "u1") db1
  = (Raised (mkHTTPException 404 "Booking not found"), db1).
Proof.
  apply (cancel_booking_again (mkCancel "c1" "u1")
           (run [BookSlot bob] seat_taken)
           (mkBookingDoc "c1" (Some [stored ann]) (Some [stored bob]))
           (mkClassList "Yoga" "c1" "Morning yoga" "lotus" "green" 1 1 1)
           eq_refl eq_refl eq_refl eq_refl).
Defined.

Lemma class_record_eq (c c' : ClassList) :
  static c' = static c -> bookings c' = bookings c ->
  waitlist c' = waitlist c -> c' = c.
Proof.
  destruct c, c'; unfold static; simpl.
  intros Hs -> ->. injection Hs as -> -> -> -> -> ->. reflexivity.
Qed.

(** X12: booking a free seat and cancelling it again gives the seat back.
    For a class with a free seat and an empty waitlist and a user without
    a confirmed reservation in it, [book_slot] followed by the user's
    [cancel_booking] answers "Booking canceled successfully" and leaves
    the bookings array, the waitlist and the whole class record as they
    were before the booking. *)
Theorem book_then_cancel (b : Booking) (db : DB) (c : ClassList) :
  let cid := b_class_id b in
  let uid := b_user_id b in
  class_of db cid = Some c ->
  bookings c < total_slots c ->
  existsb (Bookings.user_is uid) (bookings_list db cid) = false ->
  waitlist_list db cid = [] ->
  let db1 := snd (book_slot b db) in
  let db2 := snd (cancel_booking (mkCancel cid uid) db1) in
  fst (cancel_booking (mkCancel cid uid) db1)
  = Returned "Booking canceled successfully"
  /\ bookings_list db2 cid = bookings_list db cid
  /\ waitlist_list db2 cid = []
  /\ class_of db2 cid = Some c.
Proof.
  intros cid uid Hc Hfree Hnew Hwl db1 db2.
  destruct (book_slot_effect b db c Hc) as (Hc1 & Hbl1 & Hwl1).
  fold cid db1 in Hc1, Hbl1, Hwl1.
  apply Z.leb_gt in Hfree. rewrite Hfree in Hc1, Hbl1, Hwl1.
  destruct (booking_of db1 cid) as [bi1|] eqn:Hb1.
  2: { unfold bookings_list in Hbl1 at 1. rewrite Hb1 in Hbl1.
       destruct (bookings_list db cid); discriminate. }
  unfold bookings_list in Hbl1 at 1. unfold waitlist_list in Hwl1 at 1.
  rewrite Hb1 in Hbl1, Hwl1. rewrite Hwl in Hwl1.
  assert (Hm : existsb (Bookings.user_is uid) (get_list (bd_bookings bi1))
               = true).
  { rewrite Hbl1, existsb_app. simpl. unfold Bookings.user_is at 2; simpl.
    fold uid. rewrite String.eqb_refl. apply orb_true_r. }
  destruct (cancel_booking_effect (mkCancel cid uid) db1 bi1
              (Classes.inc 1 0 c) Hb1 Hm Hc1)
    as (Hout & Hbl2 & Hwl2 & c2 & Hc2 & Hbc & Hwc & _).
  cbn [c_class_id c_user_id] in Hout, Hbl2, Hwl2, Hc2, Hbc, Hwc.
  fold db2 in Hbl2, Hwl2, Hc2.
  rewrite Hwl1 in Hout, Hbl2, Hwl2, Hbc, Hwc. simpl in Hout, Hbl2, Hwl2.
  assert (Hkeep : filter (fun r => negb (Bookings.user_is uid r))
                    (get_list (bd_bookings bi1)) = bookings_list db cid).
  { rewrite Hbl1, filter_app, (filter_all _ _ Hnew). simpl.
    unfold Bookings.user_is at 1; simpl. fold uid.
    rewrite String.eqb_refl. simpl. apply app_nil_r. }
  assert (Hgone : len (filter (Bookings.user_is uid)
                         (get_list (bd_bookings bi1))) = 1).
  { pose proof (len_filter_split (Bookings.user_is uid)
                  (get_list (bd_bookings bi1))) as Hs.
    rewrite Hkeep in Hs. rewrite Hbl1 in Hs |- *.
    rewrite len_app_one in Hs. lia. }
  repeat split.
  - exact Hout.
  - rewrite Hbl2, app_nil_r. exact Hkeep.
  - exact Hwl2.
  - rewrite Hc2. f_equal.
    destruct (step_class_persists (CancelBooking (mkCancel cid uid)) db1 cid
                (Classes.inc 1 0 c) Hc1) as (c2' & Hc2' & Hs).
    simpl in Hc2'. fold db2 in Hc2'. rewrite Hc2 in Hc2'.
    injection Hc2' as <-.
    apply class_record_eq.
    + exact Hs.
    + rewrite Hbc, Hgone. unfold len; simpl. lia.
    + rewrite Hwc. unfold len; simpl. lia.
Qed.

Lemma book_then_cancel_witness :
  let db1 := snd (book_slot ann (snd (create_class yoga empty_db))) in
  let db2 := snd (cancel_booking (mkCancel "c1" "u1") db1) in
  bookings_list db2 "c1" = [] /\ class_of db2 "c1" = Some yoga.
Proof.
  destruct (book_then_cancel ann (snd (create_class yoga empty_db)) yoga
              eq_refl) as (_ & Hbl & _ & Hc).
  - simpl. lia.
  - reflexivity.
  - reflexivity.
  - split; [exact Hbl | exact Hc].
Defined.

(* ================================================================= *)
(** ** Bookings and the user's listing *)

Lemma fetch_user_bookings_run (user_id : string) (db : DB) :
  fetch_user_bookings user_id db =
  (match confirmed_of db user_id with
   | [] => Raised (mkHTTPException 404 "No bookings found for this user")
   | _ :: _ => Returned (map user_booking_of (confirmed_of db user_id))
   end, db).
Proof.
  unfold fetch_user_bookings, bind, Bookings.find_by_user, confirmed_of.
  simpl. rewrite fetch_user_bookings_results.
  destruct (flat_map _ (booking_collection db)); reflexivity.
Qed.

Lemma flat_map_update_first {A B} (p : A -> bool) (g : A -> A)
    (f : A -> list B) (l : list A) :
  (forall x, f (g x) = f x) ->
  flat_map f (update_first p g l) = flat_map f l.
Proof.
  intros Hf. induction l as [|y l IH]; simpl.
  - reflexivity.
  - destruct (p y); simpl; [now rewrite Hf | now rewrite IH].
Qed.

(** X13: a confirmed booking shows in the user's listing: after
    [book_slot] took a free seat, [fetch_user_bookings] for that user
    answers with a list that holds the entry of this class, with the class
    name of the class record and the booking date of the request. *)
Theorem booked_seat_is_listed (b : Booking) (db : DB) (c : ClassList) :
  class_of db (b_class_id b) = Some c ->
  bookings c < total_slots c ->
  let db' := snd (book_slot b db) in
  exists results,
    fetch_user_bookings (b_user_id b) db' = (Returned results, db')
    /\ In (mkUserBooking (b_class_id b) (class_name c) (b_booking_date b))
         results.
Proof.
  intros Hc Hfree db'.
  destruct (book_slot_effect b db c Hc) as (_ & Hbl & _).
  fold db' in Hbl. apply Z.leb_gt in Hfree. rewrite Hfree in Hbl.
  destruct (booking_of db' (b_class_id b)) as [d|] eqn:Hd.
  2: { unfold bookings_list in Hbl at 1. rewrite Hd in Hbl.
       destruct (bookings_list db (b_class_id b)); discriminate. }
  unfold bookings_list in Hbl at 1. rewrite Hd in Hbl.
  apply find_some in Hd as [Hin Hid]. apply String.eqb_eq in Hid.
  assert (Hconf : In (b_class_id b, set_class_name b (class_name c))
                    (confirmed_of db' (b_user_id b))).
  { unfold confirmed_of. apply in_flat_map. exists d. split; [exact Hin |].
    rewrite Hid. apply in_map. apply filter_In. split.
    - rewrite Hbl. apply in_or_app. right. now left.
    - unfold Bookings.user_is; simpl. apply String.eqb_refl. }
  rewrite fetch_user_bookings_run.
  destruct (confirmed_of db' (b_user_id b)) as [|x xs] eqn:E; [destruct Hconf |].
  eexists. split; [reflexivity |].
  apply (in_map user_booking_of) in Hconf. exact Hconf.
Qed.

Lemma booked_seat_is_listed_witness :
  exists results,
    fetch_user_bookings "u1" seat_taken = (Returned results, seat_taken)
    /\ In (mkUserBooking "c1" "Yoga" "2024-05-01") results.
Proof.
  apply (booked_seat_is_listed ann (snd (create_class yoga empty_db)) yoga
           eq_refl).
  simpl. lia.
Defined.

(** X14: being waitlisted does not show in any listing: when the class is
    full, the answer of [fetch_user_bookings] for every user, the booking
    user included, is after [book_slot] what it was before. *)
Theorem waitlisting_is_not_listed (b : Booking) (db : DB) (c : ClassList)
    (uid : string) :
  class_of db (b_class_id b) = Some c ->
  total_slots c <= bookings c ->
  fst (fetch_user_bookings uid (snd (book_slot b db)))
  = fst (fetch_user_bookings uid db).
Proof.
  intros Hc Hfull. rewrite !fetch_user_bookings_run. simpl.
  assert (Hsame : confirmed_of (snd (book_slot b db)) uid
                  = confirmed_of db uid).
  { rewrite (book_slot_run b db c Hc). apply Z.leb_le in Hfull.
    rewrite Hfull. unfold confirmed_of. cbn [booking_collection snd].
    destruct (booking_of db (b_class_id b)).
    - apply flat_map_update_first. intros x. reflexivity.
    - rewrite flat_map_app. simpl. now rewrite app_nil_r. }
  now rewrite Hsame.
Qed.

Lemma waitlisting_is_not_listed_witness :
  fst (fetch_user_bookings "u2" (snd (book_slot bob seat_taken)))
  = fst (fetch_user_bookings "u2" seat_taken).
Proof.
  apply (waitlisting_is_not_listed bob seat_taken
           (mkClassList "Yoga" "c1" "Morning yoga" "lotus" "green" 1 1 0)
           "u2" eq_refl).
  simpl. lia.
Defined.

(* ================================================================= *)
(** ** Roadmaps: saving, fetching, listing *)

Lemma roadmaps_of_save (e t : string) (n ed : list Json) (db : DB) :
  roadmaps_of (snd (save_roadmap e t n ed db)) e
  = if forallb Roadmap_ok (set_or_append t n ed (roadmaps_of db e))
    then set_or_append t n ed (roadmaps_of db e)
    else roadmaps_of db e.
Proof.
  rewrite save_roadmap_run.
  destruct (forallb Roadmap_ok _); simpl; [| reflexivity].
  apply roadmaps_of_with_roadmaps.
Qed.

Lemma roadmaps_of_save_other (e e' t : string) (n ed : list Json) (db : DB) :
  e' <> e ->
  roadmaps_of (snd (save_roadmap e t n ed db)) e' = roadmaps_of db e'.
Proof.
  intros Hne. rewrite save_roadmap_run.
  destruct (forallb Roadmap_ok _); simpl; [| reflexivity].
  now apply roadmaps_of_with_roadmaps_other.
Qed.


Lemma set_or_append_find_other (t t' : string) (n ed : list Json)
    (rs : list Roadmap) :
  t' <> t ->
  find (titled t') (set_or_append t n ed rs) = find (titled t') rs.
Proof.
  intros Hne. induction rs as [|r rs IH]; simpl.
  - unfold titled; simpl. apply String.eqb_neq in Hne.
    now rewrite String.eqb_sym, Hne.
  - destruct (String.eqb (title r) t) eqn:E; simpl.
    + unfold titled; simpl. apply String.eqb_eq in E. rewrite E.
      apply String.eqb_neq in Hne. rewrite String.eqb_sym in Hne.
      now rewrite Hne.
    + unfold titled at 1 3. destruct (String.eqb (title r) t');
        [reflexivity | exact IH].
Qed.


Lemma get_projects_run (str : HTTPException -> string) (e : string)
    (db : DB) :
  get_projects str e db = (Returned (map title (roadmaps_of db e)), db).
Proof.
  unfold get_projects, try_except, get_projects_by_email, bind,
    Roadmaps.find_one, roadmaps_of; simpl.
  now destruct (find _ (roadmaps_collection db)).
Qed.

Lemma fetch_roadmap_lookup (str : HTTPException -> string) (e t : string)
    (db : DB) :
  fst (fetch_roadmap str e t db)
  = match find (titled t) (roadmaps_of db e) with
    | Some r => Returned (nodes r, edges r)
    | None =>
        Raised (mkHTTPException 500
                  ("Failed to fetch roadmap: "
                   ++ str (mkHTTPException 404 "Roadmap not found")))
    end.
Proof.
  destruct (find (titled t) (roadmaps_of db e)) as [r|] eqn:E.
  - now rewrite (fetch_roadmap_match str e t db r E).
  - now rewrite (fetch_roadmap_no_match str e t db E).
Qed.




(** A payload with the integer 2^63 is answered with a 500 and not
    stored. *)
Example save_refused :
  forall str,
    exists message,
      save_roadmap_handler str "ann@example.org" "plan" too_big [] empty_db
      = (Raised (mkHTTPException 500 ("Failed to save roadmap: " ++ message)),
         empty_db).
Proof. intros str. eexists. reflexivity. Qed.

(** X17: a save under one email and title changes no other roadmap: a
    fetch under another email, or under the same email and another title,
    is answered after the save as it was before, and the project list of
    every other user is as it was. *)
Theorem save_roadmap_frame (str : HTTPException -> string) (e t : string)
    (n ed : list Json) (db : DB) (e' t' : string) :
  e' <> e \/ t' <> t ->
  let db' := snd (save_roadmap e t n ed db) in
  fst (fetch_roadmap str e' t' db') = fst (fetch_roadmap str e' t' db)
  /\ (e' <> e -> fst (get_projects str e' db') = fst (get_projects str e' db)).
Proof.
  intros Hne db'. subst db'. split.
  - rewrite !fetch_roadmap_lookup.
    destruct (String.eqb_spec e' e) as [-> | He].
    + destruct Hne as [He | Ht]; [contradiction |].
      rewrite roadmaps_of_save.
      destruct (forallb Roadmap_ok _); [| reflexivity].
      now rewrite set_or_append_find_other.
    + now rewrite roadmaps_of_save_other.
  - intros He. rewrite !get_projects_run. simpl.
    now rewrite roadmaps_of_save_other.
Qed.

Lemma save_roadmap_frame_witness :
  let db := snd (save_roadmap "ann@example.org" "plan" [JInt 1] [] empty_db) in
  let db' := snd (save_roadmap "ann@example.org" "draft" [] [] db) in
  fst (fetch_roadmap (fun _ => "e") "ann@example.org" "plan" db')
  = Returned ([JInt 1], []).
Proof.
  intros db db'.
  destruct (save_roadmap_frame (fun _ => "e") "ann@example.org" "draft" [] []
              db "ann@example.org" "plan") as [H _].
  - right. discriminate.
  - exact H.
Defined.

(** X18: in every store reached by serial requests from the empty store,
    the project list of a user names no title twice. *)
Theorem project_titles_distinct (str : HTTPException -> string)
    (ops : list Op) (e : string) :
  let db := run ops empty_db in
  exists titles,
    get_projects str e db = (Returned titles, db) /\ NoDup titles.
Proof.
  intros db. exists (map title (roadmaps_of db e)).
  split; [apply get_projects_run |].
  destruct (run_roadmaps_wf ops empty_db empty_db_roadmaps_wf) as [_ Ht].
  fold db in Ht. unfold roadmaps_of.
  destruct (find (Roadmaps.by_email e) (roadmaps_collection db)) as [d|] eqn:E.
  - apply find_some in E as [Hin _].
    rewrite Forall_forall in Ht. now apply Ht.
  - constructor.
Qed.

Lemma step_keeps_roadmap (e t : string) (op : Op) (db : DB) :
  saves_to e t op = false ->
  find (titled t) (roadmaps_of (step op db) e)
  = find (titled t) (roadmaps_of db e).
Proof.
  intros Hop. destruct op as [e' t' n ed | c | b | r]; simpl in *.
  - destruct (String.eqb_spec e' e) as [-> | He]; simpl in Hop.
    + apply String.eqb_neq in Hop.
      rewrite roadmaps_of_save.
      destruct (forallb Roadmap_ok _); [| reflexivity].
      apply set_or_append_find_other. congruence.
    + rewrite roadmaps_of_save_other; [reflexivity | congruence].
  - unfold roadmaps_of. now rewrite create_class_roadmaps.
  - unfold roadmaps_of. now rewrite book_slot_roadmaps.
  - unfold roadmaps_of. now rewrite cancel_booking_roadmaps.
Qed.

(** X19: a stored roadmap is never lost or changed by other requests:
    after any serial requests among which none is a save under the same
    email and title (saves of other users or titles, registrations,
    bookings, cancellations), a fetch under that email and title is
    answered as it was before them. *)
Theorem stored_roadmap_stays (str : HTTPException -> string) (e t : string)
    (ops : list Op) (db : DB) :
  Forall (fun op => saves_to e t op = false) ops ->
  fst (fetch_roadmap str e t (run ops db)) = fst (fetch_roadmap str e t db).
Proof.
  intros Hops. rewrite !fetch_roadmap_lookup.
  revert db. induction Hops as [|op ops Hop Hrest IH]; simpl; intros db.
  - reflexivity.
  - now rewrite IH, step_keeps_roadmap.
Qed.

Lemma stored_roadmap_stays_witness :
  let db := snd (save_roadmap "ann@example.org" "plan" [JInt 1] [JInt 2]
                   empty_db) in
  fst (fetch_roadmap (fun _ => "e") "ann@example.org" "plan"
         (run [SaveRoadmap "ann@example.org" "draft" [] [];
               SaveRoadmap "bob@example.org" "plan" [] [];
               RegisterClass yoga; BookSlot ann] db))
  = Returned ([JInt 1], [JInt 2]).
Proof.
  intros db.
  apply (stored_roadmap_stays (fun _ => "e") "ann@example.org" "plan"
           [SaveRoadmap "ann@example.org" "draft" [] [];
            SaveRoadmap "bob@example.org" "plan" [] [];
            RegisterClass yoga; BookSlot ann] db).
  repeat constructor.
Defined.
